(** * Invoice generator: pricing arithmetic, currency formatting and the
      line-item table

    A shallow embedding of [main.py] (the invoice model and the parts of
    [generate_pdf] that decide what is printed) and of the item loop of
    [app.py] ([create_invoice]).

    Python numbers are modelled as they are at run time: an [int] is an
    unbounded integer ([Z]), a [float] is an IEEE 754 binary64 value (the
    kernel's primitive [float]), and mixed arithmetic converts the [int]
    operand to [float] first, raising [OverflowError] when it does not fit.
    A Python [str] is the string of its UTF-8 bytes. *)

From Stdlib Require Import ZArith List String Ascii Bool Lia Floats.
From Stdlib Require Import Permutation DecimalString DecimalPos DecimalZ.
From Equations Require Import Equations.
Import ListNotations.

Open Scope string_scope.
Open Scope Z_scope.
Open Scope list_scope.

Set Warnings "-inexact-float,-register-all".

(** ** Exceptions and results

    [ValidationError] is the error kind the specification names for
    rejected input; no statement of the program raises it. *)

Inductive exn : Set :=
| TypeError
| ValueError
| OverflowError
| KeyError
| AttributeError
| ValidationError.

Inductive result (A : Type) : Type :=
| Ok (a : A)
| Raise (e : exn).

Arguments Ok {A} a.
Arguments Raise {A} e.

Definition bind {A B : Type} (r : result A) (k : A -> result B) : result B :=
  match r with
  | Ok a => k a
  | Raise e => Raise e
  end.

Notation "x <- r ;; k" := (bind r (fun x => k))
  (at level 61, r at next level, right associativity).

(** ** Python numbers *)

Inductive num : Set :=
| PyInt (z : Z)
| PyFloat (f : float).

(** [float(z)] for an [int]: the nearest binary64 value, ties to even. *)
Definition float_of_Z (z : Z) : float :=
  SF2Prim (binary_normalize prec emax z 0 false).

(** The conversion raises [OverflowError] when the rounded value leaves the
    binary64 range. *)
Definition int_to_float (z : Z) : result float :=
  let f := float_of_Z z in
  if is_infinity f then Raise OverflowError else Ok f.

Definition num_binop (zop : Z -> Z -> Z) (fop : float -> float -> float)
    (a b : num) : result num :=
  match a, b with
  | PyInt x, PyInt y => Ok (PyInt (zop x y))
  | PyInt x, PyFloat y => x' <- int_to_float x ;; Ok (PyFloat (fop x' y))
  | PyFloat x, PyInt y => y' <- int_to_float y ;; Ok (PyFloat (fop x y'))
  | PyFloat x, PyFloat y => Ok (PyFloat (fop x y))
  end.

Definition py_add : num -> num -> result num := num_binop Z.add PrimFloat.add.
Definition py_sub : num -> num -> result num := num_binop Z.sub PrimFloat.sub.
Definition py_mul : num -> num -> result num := num_binop Z.mul PrimFloat.mul.

(** CPython 3.12 and later accumulate a run of [float] items with a
    compensation term (Neumaier's variant of Kahan summation) and add it
    once at the end when it is finite and not zero.  [sum_compensated] is
    the value of that loop on a sequence of floats, from the [int] 0. *)
Fixpoint neumaier (f c : float) (xs : list float) : float * float :=
  match xs with
  | [] => (f, c)
  | x :: xs' =>
      let t := (f + x)%float in
      let c' := if (abs x <=? abs f)%float
                then (c + ((f - t) + x))%float
                else (c + ((x - t) + f))%float in
      neumaier t c' xs'
  end.

Definition sum_compensated (xs : list float) : num :=
  match xs with
  | [] => PyInt 0
  | x :: xs' =>
      let '(f, c) := neumaier (float_of_Z 0 + x)%float 0%float xs' in
      PyFloat (if negb (is_zero c) && is_finite c then (f + c)%float else f)
  end.

(** ** Python values

    The values a decoded JSON document is made of; the numbers among them
    are [num]s. *)

Inductive pyval : Type :=
| PNone
| PBool (b : bool)
| PNum (n : num)
| PStr (s : string)
| PList (l : list pyval)
| PDict (d : list (string * pyval)).

(** How the builtin [sum] adds floats: one after the other (CPython up
    to 3.11), or with a compensation term (CPython 3.12 and later). *)
Inductive summation : Set :=
| PlainSum
| CompensatedSum.

(** What the program takes from outside, the interpreter and the layout
    library.  From the interpreter: reading an [int] or a [float] from a
    string ([None] when the text is not a literal), printing a [float],
    the limit on the number of digits of an [int] that is converted to text
    (0 for no limit; 4300 by default since Python 3.11), the algorithm of
    the builtin [sum], and the largest C [long], which bounds the integers
    the fast paths of [sum] handle.  From the layout library: what its
    markup parser says about the text of a paragraph ([None] when it
    accepts it, else the exception it raises). *)
Record runtime : Type := {
  str_to_int : string -> option Z;
  str_to_float : string -> option float;
  float_repr : float -> string;
  int_max_str_digits : nat;
  builtin_sum : summation;
  long_max : Z;
  markup_error : string -> option exn
}.

(** A number where one is needed; [bool] is a subtype of [int]. *)
Definition as_num (v : pyval) : result num :=
  match v with
  | PNum n => Ok n
  | PBool b => Ok (PyInt (if b then 1 else 0))
  | _ => Raise TypeError
  end.

Definition is_numeric (v : pyval) : bool :=
  match v with
  | PNum _ | PBool _ => true
  | _ => false
  end.

(** [int(f)] on a float: the fractional part is dropped (rounding towards
    zero); NaN and the infinities are refused. *)
Definition float_trunc (f : float) : result Z :=
  match Prim2SF f with
  | S754_nan => Raise ValueError
  | S754_infinity _ => Raise OverflowError
  | S754_zero _ => Ok 0
  | S754_finite s m e =>
      let a := if (0 <=? e)%Z then Z.shiftl (Zpos m) e
               else Z.shiftr (Zpos m) (- e) in
      Ok (if s then (- a)%Z else a)
  end.

Section Conversions.
Variable rt : runtime.

(** The builtin [int]. *)
Definition py_int (v : pyval) : result Z :=
  match v with
  | PNum (PyInt z) => Ok z
  | PNum (PyFloat f) => float_trunc f
  | PBool b => Ok (if b then 1 else 0)
  | PStr s => match str_to_int rt s with
              | Some z => Ok z
              | None => Raise ValueError
              end
  | _ => Raise TypeError
  end.

(** The builtin [float]. *)
Definition py_float (v : pyval) : result float :=
  match v with
  | PNum (PyInt z) => int_to_float z
  | PNum (PyFloat f) => Ok f
  | PBool b => Ok (if b then 1%float else 0%float)
  | PStr s => match str_to_float rt s with
              | Some f => Ok f
              | None => Raise ValueError
              end
  | _ => Raise TypeError
  end.

(** [str] of a number. *)
Definition py_str (n : num) : result string :=
  match n with
  | PyInt z =>
      let digits := NilZero.string_of_int (Z.to_int (Z.abs z)) in
      let limit := int_max_str_digits rt in
      if negb (limit =? 0)%nat && (limit <? String.length digits)%nat
      then Raise ValueError
      else Ok (NilZero.string_of_int (Z.to_int z))
  | PyFloat f => Ok (float_repr rt f)
  end.
End Conversions.

(** ** The builtin [sum]

    [sum] starts from the [int] 0 and takes the items of its argument one
    by one.  Up to CPython 3.11 the result is that of adding each item to
    the running total.  From 3.12 on the loop has three stages: while the
    total and the items are integers that fit a C [long] it adds them as
    such; once the total is a float it keeps the total and a compensation
    term in two doubles, adding a float item with Neumaier's step and an
    integer item that fits a [long] plainly; anything else is added to the
    total as a Python object, and from then on every item is.  The
    compensation is added to the total when the float stage is left, if it
    is finite and not zero. *)
Inductive sum_state : Set :=
| SumInt (i : Z)
| SumFloat (f c : float)
| SumObject (acc : num).

Definition fits_long (rt : runtime) (z : Z) : bool :=
  (- long_max rt - 1 <=? z)%Z && (z <=? long_max rt)%Z.

Definition flush (f c : float) : float :=
  if negb (is_zero c) && is_finite c then (f + c)%float else f.

Definition sum_step (rt : runtime) (st : sum_state) (x : num) : result sum_state :=
  match st, x with
  | SumInt i, PyInt b =>
      if fits_long rt b && fits_long rt (i + b) then Ok (SumInt (i + b))
      else Ok (SumObject (PyInt (i + b)))
  | SumInt i, PyFloat x =>
      f <- int_to_float i ;; Ok (SumFloat (f + x)%float 0%float)
  | SumFloat f c, PyFloat x =>
      let t := (f + x)%float in
      let c' := if (abs x <=? abs f)%float
                then (c + ((f - t) + x))%float
                else (c + ((x - t) + f))%float in
      Ok (SumFloat t c')
  | SumFloat f c, PyInt v =>
      if fits_long rt v then Ok (SumFloat (f + float_of_Z v)%float c)
      else v' <- int_to_float v ;; Ok (SumObject (PyFloat (flush f c + v')%float))
  | SumObject acc, x => acc' <- py_add acc x ;; Ok (SumObject acc')
  end.

Definition sum_finish (st : sum_state) : num :=
  match st with
  | SumInt i => PyInt i
  | SumFloat f c => PyFloat (flush f c)
  | SumObject acc => acc
  end.

Definition sum_start (rt : runtime) : sum_state :=
  match builtin_sum rt with
  | PlainSum => SumObject (PyInt 0)
  | CompensatedSum => SumInt 0
  end.

(** The items come from an iterator, each computed when the loop asks
    for it: an item that fails to compute ends the loop with its error. *)
Fixpoint sum_loop (rt : runtime) (st : sum_state) (xs : list (result num))
    : result num :=
  match xs with
  | [] => Ok (sum_finish st)
  | r :: rest =>
      x <- r ;; st' <- sum_step rt st x ;; sum_loop rt st' rest
  end.

Definition sum_iter (rt : runtime) (xs : list (result num)) : result num :=
  sum_loop rt (sum_start rt) xs.

(** [sum(xs)] for a list. *)
Definition py_sum (rt : runtime) (xs : list num) : result num :=
  sum_iter rt (map Ok xs).

(** [for x in xs: ...] with a body that may raise. *)
Fixpoint mapM {A B : Type} (f : A -> result B) (xs : list A) : result (list B) :=
  match xs with
  | [] => Ok []
  | x :: xs' => y <- f x ;; ys <- mapM f xs' ;; Ok (y :: ys)
  end.

(** Subscription [v[k]] with a string key. *)
Fixpoint assoc (k : string) (d : list (string * pyval)) : option pyval :=
  match d with
  | [] => None
  | (k', v) :: d' => if String.eqb k k' then Some v else assoc k d'
  end.

Definition py_getitem (v : pyval) (k : string) : result pyval :=
  match v with
  | PDict d => match assoc k d with
               | Some x => Ok x
               | None => Raise KeyError
               end
  | _ => Raise TypeError
  end.

(** [v.get(k, default)]: only a [dict] has the method. *)
Definition py_get (v : pyval) (k : string) (default : pyval) : result pyval :=
  match v with
  | PDict d => Ok (match assoc k d with
                   | Some x => x
                   | None => default
                   end)
  | _ => Raise AttributeError
  end.

(** [k in v] for a [dict]. *)
Definition dict_has (d : list (string * pyval)) (k : string) : bool :=
  match assoc k d with
  | Some _ => true
  | None => false
  end.

(** The items a [for] loop visits: the elements of a list, the keys of a
    [dict], the characters of a string. *)
Definition py_iter (v : pyval) : result (list pyval) :=
  match v with
  | PList l => Ok l
  | PDict d => Ok (map (fun kv => PStr (fst kv)) d)
  | PStr s => Ok (map (fun c => PStr (String c EmptyString)) (list_ascii_of_string s))
  | _ => Raise TypeError
  end.

(** [len(v)] followed by [v += [...]]: both work together on a list only. *)
Definition as_list (v : pyval) : result (list pyval) :=
  match v with
  | PList l => Ok l
  | _ => Raise TypeError
  end.

Definition is_str (v : pyval) (s : string) : bool :=
  match v with
  | PStr s' => String.eqb s' s
  | _ => false
  end.

(** ** [main.py]: the invoice model *)

Module Client.
Record t : Type := {
  name : pyval;
  email : pyval;
  address : pyval;
  contact : pyval
}.
End Client.

Module Item.
(** The [charge_types] and [charge_amounts] fields default to [None]. *)
Record t : Type := {
  name : pyval;
  qty : num;
  price : num;
  charge_types : option (list pyval);
  charge_amounts : option (list num)
}.

(** [x or []] for an optional list: [None] and the empty list are both
    false. *)
Definition or_empty {A : Type} (x : option (list A)) : list A :=
  match x with
  | Some l => l
  | None => []
  end.

Definition price_cal (rt : runtime) (self : t) : result num :=
  base <- py_mul (qty self) (price self) ;;
  extras <- py_sum rt (or_empty (charge_amounts self)) ;;
  py_add base extras.
End Item.

Module Invoice.
Record t : Type := {
  client : Client.t;
  items : list Item.t;
  invoice_date : Z;
  invoice_number : string;
  tax_rate : pyval;
  discount : pyval;
  discount_type : pyval
}.

(** The constructor reads the clock and the identity of the new object. *)
Definition init (c : Client.t) (now : Z) (ident : Z) : t :=
  {| client := c;
     items := [];
     invoice_date := now;
     invoice_number := ("INV-" ++ NilZero.string_of_int (Z.to_int ident))%string;
     tax_rate := PNum (PyFloat 0);
     discount := PNum (PyFloat 0);
     discount_type := PStr "flat" |}.

Definition add_item (self : t) (item : Item.t) : result t :=
  Ok {| client := client self;
        items := items self ++ [item];
        invoice_date := invoice_date self;
        invoice_number := invoice_number self;
        tax_rate := tax_rate self;
        discount := discount self;
        discount_type := discount_type self |}.

Definition set_tax_rate (self : t) (rate : pyval) : result t :=
  Ok {| client := client self;
        items := items self;
        invoice_date := invoice_date self;
        invoice_number := invoice_number self;
        tax_rate := rate;
        discount := discount self;
        discount_type := discount_type self |}.

Definition set_discount (self : t) (amount : pyval) (dtype : pyval) : result t :=
  Ok {| client := client self;
        items := items self;
        invoice_date := invoice_date self;
        invoice_number := invoice_number self;
        tax_rate := tax_rate self;
        discount := amount;
        discount_type := dtype |}.
End Invoice.

(** [sum(item.price_cal() for item in items)]: the generator computes a
    line total only when [sum] asks for it, so the first failure, of a line
    total or of an addition, ends the loop. *)
Definition calculate_subtotal (rt : runtime) (items : list Item.t) : result num :=
  sum_iter rt (map (Item.price_cal rt) items).

Definition apply_discount (subtotal discount : num) (discount_type : pyval)
    : result num :=
  if is_str discount_type "percentage"
  then k <- py_sub (PyInt 1) discount ;; py_mul subtotal k
  else py_sub subtotal discount.

Definition apply_tax (amount tax_rate : num) : result num :=
  k <- py_add (PyInt 1) tax_rate ;; py_mul amount k.

(** The three totals as [generate_pdf] computes them from the invoice. *)
Definition totals (rt : runtime) (invoice : Invoice.t)
    : result (num * num * num) :=
  subtotal <- calculate_subtotal rt (Invoice.items invoice) ;;
  d <- as_num (Invoice.discount invoice) ;;
  discounted <- apply_discount subtotal d (Invoice.discount_type invoice) ;;
  r <- as_num (Invoice.tax_rate invoice) ;;
  total <- apply_tax discounted r ;;
  Ok (subtotal, discounted, total).

(** ** [generate_pdf]: currency formatting

    The format specification [,.2f]: the amount is rounded to hundredths
    (correctly, ties to even, from its exact binary value), the integer
    part is written in groups of three digits separated by commas, and two
    decimals follow the point. *)

Definition digit_char (d : Z) : ascii := ascii_of_nat (48 + Z.to_nat d).

Definition two_digits (n : Z) : string :=
  String (digit_char (n / 10)) (String (digit_char (n mod 10)) "").

Definition three_digits (n : Z) : string :=
  String (digit_char (n / 100)) (two_digits (n mod 100)).

Definition leading_group (n : Z) : string :=
  if (n <? 10)%Z then String (digit_char n) ""
  else if (n <? 100)%Z then two_digits n
  else three_digits n.

Equations group_thousands (n : Z) : string by wf (Z.to_nat (Z.log2 n)) lt :=
  group_thousands n with Z_lt_dec n 1000 := {
    | left _ => leading_group n
    | right _ =>
        (group_thousands (n / 1000) ++ "," ++ three_digits (n mod 1000))%string }.
Next Obligation.
  assert (Hle : n / 1000 <= Z.shiftr n 1).
  { rewrite Z.shiftr_div_pow2 by lia. apply Z.div_le_compat_l; lia. }
  apply Z.log2_le_mono in Hle. rewrite Z.log2_shiftr in Hle by lia.
  assert (Z.log2 1000 <= Z.log2 n) by (apply Z.log2_le_mono; lia).
  change (Z.log2 1000) with 9 in H.
  pose proof (Z.log2_nonneg (n / 1000)). lia.
Qed.

(** [n / d] rounded to the nearest integer, ties to the even one. *)
Definition div_half_even (n d : Z) : Z :=
  let q := n / d in
  let r := n mod d in
  if (2 * r <? d)%Z then q
  else if (d <? 2 * r)%Z then q + 1
  else if Z.even q then q else q + 1.

(** The hundredths in [m * 2^e], rounded. *)
Definition hundredths (m : positive) (e : Z) : Z :=
  if (0 <=? e)%Z then Zpos m * 2 ^ e * 100
  else div_half_even (Zpos m * 100) (2 ^ (- e)).

Definition sign_str (s : bool) : string := if s then "-" else "".

Definition format_f2 (f : float) : string :=
  match Prim2SF f with
  | S754_nan => "nan"
  | S754_infinity s => (sign_str s ++ "inf")%string
  | S754_zero s => (sign_str s ++ "0.00")%string
  | S754_finite s m e =>
      let c := hundredths m e in
      (sign_str s ++ group_thousands (c / 100) ++ "."
         ++ two_digits (c mod 100))%string
  end.

(** An [int] is converted to [float] before it is formatted. *)
Definition format_num (amount : num) : result string :=
  match amount with
  | PyInt z => f <- int_to_float z ;; Ok (format_f2 f)
  | PyFloat f => Ok (format_f2 f)
  end.

(** The glyph literal of the [INR] branch as the source file has it: the
    three characters U+00E2, U+201A, U+00B9. *)
Definition inr_glyph : string := "â‚¹".

(** The rupee sign, U+20B9. *)
Definition rupee_sign : string := "₹".

Definition format_currency (currency : pyval) (amount : num) : result string :=
  if is_str currency "INR"
  then body <- format_num amount ;; Ok (inr_glyph ++ body)%string
  else body <- format_num amount ;; Ok ("$" ++ body)%string.

(** ** [generate_pdf]: the line-item table *)

(** A [Paragraph] of the layout library: its text and the name of its
    style. *)
Inductive flowable : Type :=
| Paragraph (text : pyval) (style : string).

(** The call [Paragraph(text, style)]: the constructor splits the text
    into lines, which a value that is not a string does not support
    ([AttributeError]), and hands a string to the library's markup parser,
    which may refuse it. *)
Definition new_paragraph (rt : runtime) (text : pyval) (style : string)
    : result flowable :=
  match text with
  | PStr s =>
      match markup_error rt s with
      | None => Ok (Paragraph text style)
      | Some e => Raise e
      end
  | _ => Raise AttributeError
  end.

Definition row : Type := list flowable.

(** The header row and the blank rows are built from literals of the
    program, which the library accepts. *)
Definition table_headers : row :=
  [ Paragraph (PStr "<b>Item Name</b>") "tHead";
    Paragraph (PStr "<b>Description</b>") "tHead";
    Paragraph (PStr "<b>Price</b>") "tHead";
    Paragraph (PStr "<b>Quantity</b>") "tHead";
    Paragraph (PStr "<b>Total</b>") "tHead" ].

Definition blank_row : row := repeat (Paragraph (PStr "") "BillNorm") 5.

(** [", ".join(xs)]: every element has to be a string. *)
Fixpoint join_comma (xs : list pyval) : result string :=
  match xs with
  | [] => Ok ""
  | PStr s :: [] => Ok s
  | PStr s :: rest => r <- join_comma rest ;; Ok (s ++ ", " ++ r)%string
  | _ :: _ => Raise TypeError
  end.

(** [while len(item_data) < 7: item_data.append(blank row)] *)
Equations pad_rows (item_data : list row) : list row
    by wf (7 - List.length item_data)%nat lt :=
  pad_rows item_data with lt_dec (List.length item_data) 7 := {
    | left _ => pad_rows (item_data ++ [blank_row])
    | right _ => item_data }.
Next Obligation.
  change (7 - List.length (item_data ++ [blank_row]) < 7 - List.length item_data)%nat.
  rewrite List.length_app. simpl List.length. lia.
Qed.

Section Table.
Variable rt : runtime.
Variable currency : pyval.

Definition item_row (item : Item.t) : result row :=
  desc <- match Item.charge_types item with
          | None | Some [] => Ok "-"
          | Some l => join_comma l
          end ;;
  c1 <- new_paragraph rt (Item.name item) "tabval" ;;
  c2 <- new_paragraph rt (PStr desc) "tabval" ;;
  p <- format_currency currency (Item.price item) ;;
  c3 <- new_paragraph rt (PStr p) "tabval" ;;
  q <- py_str rt (Item.qty item) ;;
  c4 <- new_paragraph rt (PStr q) "tabval" ;;
  line <- Item.price_cal rt item ;;
  t <- format_currency currency line ;;
  c5 <- new_paragraph rt (PStr t) "tabval" ;;
  Ok [c1; c2; c3; c4; c5].

(** [for item in invoice.items: ... item_data.append(row)] *)
Fixpoint append_item_rows (item_data : list row) (items : list Item.t)
    : result (list row) :=
  match items with
  | [] => Ok item_data
  | item :: rest =>
      r <- item_row item ;;
      append_item_rows (item_data ++ [r]) rest
  end.

Definition item_table (invoice : Invoice.t) : result (list row) :=
  item_data <- append_item_rows [table_headers] (Invoice.items invoice) ;;
  Ok (pad_rows item_data).
End Table.

(** ** [app.py]: building the invoice from the request payload *)

Section App.
Variable rt : runtime.

(** The body of the loop over [data['items']]. *)
Definition item_of_payload (item_data : pyval) : result Item.t :=
  ct <- py_get item_data "charge_types" (PList []) ;;
  ca <- py_get item_data "charge_amounts" (PList []) ;;
  charge_types <- as_list ct ;;
  charge_amounts <- as_list ca ;;
  let max_len := Nat.max (List.length charge_types) (List.length charge_amounts) in
  let charge_types :=
    charge_types ++ repeat (PStr "") (max_len - List.length charge_types) in
  let charge_amounts :=
    charge_amounts
      ++ repeat (PNum (PyFloat 0)) (max_len - List.length charge_amounts) in
  name <- py_getitem item_data "name" ;;
  quantity <- py_getitem item_data "quantity" ;;
  qty <- py_int rt quantity ;;
  p <- py_getitem item_data "price" ;;
  price <- py_float rt p ;;
  amounts <- mapM (py_float rt) charge_amounts ;;
  Ok {| Item.name := name;
        Item.qty := PyInt qty;
        Item.price := PyFloat price;
        Item.charge_types := Some charge_types;
        Item.charge_amounts := Some (map PyFloat amounts) |}.

Fixpoint add_items (invoice : Invoice.t) (payload : list pyval)
    : result Invoice.t :=
  match payload with
  | [] => Ok invoice
  | item_data :: rest =>
      item <- item_of_payload item_data ;;
      invoice' <- Invoice.add_item invoice item ;;
      add_items invoice' rest
  end.

(** [create_invoice] up to the call of [generate_pdf]: the invoice and the
    currency code handed to the renderer. *)
Definition create_invoice (data : pyval) (now ident : Z)
    : result (Invoice.t * pyval) :=
  c <- py_getitem data "client" ;;
  name <- py_getitem c "name" ;;
  email <- py_getitem c "email" ;;
  address <- py_getitem c "address" ;;
  phone <- py_get c "phone" PNone ;;
  let client := {| Client.name := name; Client.email := email;
                   Client.address := address; Client.contact := phone |} in
  let invoice := Invoice.init client now ident in
  its <- py_getitem data "items" ;;
  payload <- py_iter its ;;
  invoice <- add_items invoice payload ;;
  invoice <- match data with
             | PDict d =>
                 if dict_has d "tax_rate"
                 then r <- py_getitem data "tax_rate" ;;
                      r' <- py_float rt r ;;
                      Invoice.set_tax_rate invoice (PNum (PyFloat r'))
                 else Ok invoice
             | _ => Raise TypeError
             end ;;
  invoice <- match data with
             | PDict d =>
                 if dict_has d "discount"
                 then a <- py_getitem data "discount" ;;
                      a' <- py_float rt a ;;
                      t <- py_get data "discount_type" (PStr "flat") ;;
                      Invoice.set_discount invoice (PNum (PyFloat a')) t
                 else Ok invoice
             | _ => Raise TypeError
             end ;;
  currency <- py_get data "currency" (PStr "USD") ;;
  Ok (invoice, currency).
End App.

(** ** [generate_pdf]: the file name, the totals block and the footer *)

(** [if filename is None: filename = f"invoice_{invoice.invoice_number}.pdf"] *)
Definition pdf_filename (invoice : Invoice.t) (filename : option string) : string :=
  match filename with
  | Some f => f
  | None => ("invoice_" ++ Invoice.invoice_number invoice ++ ".pdf")%string
  end.

(** The decimal digits of a natural number, without separators. *)
Equations decimal_digits (n : Z) : string by wf (Z.to_nat (Z.log2 n)) lt :=
  decimal_digits n with Z_lt_dec n 10 := {
    | left _ => String (digit_char n) ""
    | right _ =>
        (decimal_digits (n / 10) ++ String (digit_char (n mod 10)) "")%string }.
Next Obligation.
  assert (Hle : n / 10 <= Z.shiftr n 1).
  { rewrite Z.shiftr_div_pow2 by lia. apply Z.div_le_compat_l; lia. }
  apply Z.log2_le_mono in Hle. rewrite Z.log2_shiftr in Hle by lia.
  assert (Z.log2 10 <= Z.log2 n) by (apply Z.log2_le_mono; lia).
  change (Z.log2 10) with 3 in H.
  pose proof (Z.log2_nonneg (n / 10)). lia.
Qed.

(** The format specification [.2f]: as [,.2f] without the grouping. *)
Definition format_plain_f2 (f : float) : string :=
  match Prim2SF f with
  | S754_nan => "nan"
  | S754_infinity s => (sign_str s ++ "inf")%string
  | S754_zero s => (sign_str s ++ "0.00")%string
  | S754_finite s m e =>
      let c := hundredths m e in
      (sign_str s ++ decimal_digits (c / 100) ++ "."
         ++ two_digits (c mod 100))%string
  end.

Definition format_plain_num (amount : num) : result string :=
  match amount with
  | PyInt z => f <- int_to_float z ;; Ok (format_plain_f2 f)
  | PyFloat f => Ok (format_plain_f2 f)
  end.

(** ["{:.2f}%".format(invoice.tax_rate * 100)] *)
Definition tax_display (tax_rate : num) : result string :=
  percent <- py_mul tax_rate (PyInt 100) ;;
  body <- format_plain_num percent ;;
  Ok (body ++ "%")%string.

(** The three value cells of the totals block: the subtotal, the tax
    rate and the amount due, computed in that order after the totals. *)
Definition amt_rows (rt : runtime) (currency : pyval) (invoice : Invoice.t)
    : result (string * string * string) :=
  ts <- totals rt invoice ;;
  let '(subtotal, _, total) := ts in
  r <- as_num (Invoice.tax_rate invoice) ;;
  tax <- tax_display r ;;
  s <- format_currency currency subtotal ;;
  t <- format_currency currency total ;;
  Ok (s, tax, t).

(** Truth value of a Python value, as [x or default] tests it. *)
Definition truthy (v : pyval) : bool :=
  match v with
  | PNone => false
  | PBool b => b
  | PNum (PyInt z) => negb (z =? 0)%Z
  | PNum (PyFloat f) => negb (is_zero f)
  | PStr s => negb (String.eqb s "")
  | PList l => match l with [] => false | _ :: _ => true end
  | PDict d => match d with [] => false | _ :: _ => true end
  end.

(** The characters of a string: every byte that is not a UTF-8
    continuation byte starts a character. *)
Definition is_continuation (c : ascii) : bool :=
  (128 <=? nat_of_ascii c)%nat && (nat_of_ascii c <? 192)%nat.

Definition starts_with_continuation (s : string) : bool :=
  match s with
  | EmptyString => false
  | String c _ => is_continuation c
  end.

Fixpoint utf8_chars (s : string) : list string :=
  match s with
  | EmptyString => []
  | String c s' =>
      match utf8_chars s' with
      | cur :: rest =>
          if starts_with_continuation cur then String c cur :: rest
          else String c "" :: cur :: rest
      | [] => [String c ""]
      end
  end.

(** What [sep.join(v)] iterates over. *)
Definition join_items (v : pyval) : result (list pyval) :=
  match v with
  | PList l => Ok l
  | PDict d => Ok (map (fun kv => PStr (fst kv)) d)
  | PStr s => Ok (map PStr (utf8_chars s))
  | _ => Raise TypeError
  end.

(** [sep.join(xs)]: every element has to be a string. *)
Fixpoint py_join (sep : string) (xs : list pyval) : result string :=
  match xs with
  | [] => Ok ""
  | PStr s :: [] => Ok s
  | PStr s :: rest => r <- py_join sep rest ;; Ok (s ++ sep ++ r)%string
  | _ :: _ => Raise TypeError
  end.

(** The text of the footer paragraph: [notes = notes or [""]], the same
    for [terms], and the two joined with line breaks under their
    headings. *)
Definition footer_text (notes terms : pyval) : result string :=
  let notes := if truthy notes then notes else PList [PStr ""] in
  let terms := if truthy terms then terms else PList [PStr ""] in
  ns <- join_items notes ;;
  n <- py_join "<br/>" ns ;;
  ts <- join_items terms ;;
  t <- py_join "<br/>" ts ;;
  Ok ("<b>Notes:</b><br/>" ++ n
      ++ "<br/><br/><b>Terms & Conditions:</b><br/>" ++ t)%string.

(** A quantity that [float] can represent. *)
Definition qty_fits (item : Item.t) : bool :=
  match Item.qty item with
  | PyInt q => negb (is_infinity (float_of_Z q))
  | PyFloat _ => true
  end.

(** ** Notions used to state the properties *)

(** An item all of whose numbers are [int]s: its arithmetic is exact. *)
Definition is_int (n : num) : bool :=
  match n with
  | PyInt _ => true
  | PyFloat _ => false
  end.

Definition exact_item (item : Item.t) : bool :=
  is_int (Item.qty item) && is_int (Item.price item)
  && forallb is_int (Item.or_empty (Item.charge_amounts item)).

Definition int_value (n : num) : Z :=
  match n with
  | PyInt z => z
  | PyFloat _ => 0
  end.

(** The line total of an exact item, in [Z]. *)
Definition exact_line_total (item : Item.t) : Z :=
  int_value (Item.qty item) * int_value (Item.price item)
  + fold_right Z.add 0 (map int_value (Item.or_empty (Item.charge_amounts item))).

(** An item whose quantity, price and charges are floats. *)
Definition float_item (nm : pyval) (q p : float) (types : option (list pyval))
    (cs : list float) : Item.t :=
  {| Item.name := nm; Item.qty := PyFloat q; Item.price := PyFloat p;
     Item.charge_types := types; Item.charge_amounts := Some (map PyFloat cs) |}.

(** An item as the request handler builds it: an [int] quantity, a float
    price and float charges. *)
Definition handler_item (nm : pyval) (q : Z) (p : float)
    (types : option (list pyval)) (cs : list float) : Item.t :=
  {| Item.name := nm; Item.qty := PyInt q; Item.price := PyFloat p;
     Item.charge_types := types; Item.charge_amounts := Some (map PyFloat cs) |}.

(** The floats of a list added from left to right. *)
Definition float_sum (cs : list float) : float :=
  fold_left PrimFloat.add cs 0%float.

(** The value [sum] gives to a list of floats, as a float (0.0 stands
    for the integer 0 of the empty list): the plain left-to-right sum, or
    the compensated one. *)
Definition float_total (rt : runtime) (cs : list float) : float :=
  match builtin_sum rt with
  | PlainSum => float_sum cs
  | CompensatedSum =>
      match sum_compensated cs with
      | PyFloat v => v
      | PyInt _ => 0%float
      end
  end.

(** [item] with its [charge_amounts] replaced. *)
Definition with_charge_amounts (item : Item.t) (cs : option (list num)) : Item.t :=
  {| Item.name := Item.name item; Item.qty := Item.qty item;
     Item.price := Item.price item; Item.charge_types := Item.charge_types item;
     Item.charge_amounts := cs |}.

(** The shape of a formatted amount: an optional minus sign, the integer
    part in groups of digits (one to three digits first, then exactly three
    in every further group, commas between the groups), a point, and two
    digits. *)
Definition is_digit (c : ascii) : bool :=
  (48 <=? nat_of_ascii c)%nat && (nat_of_ascii c <=? 57)%nat.

Fixpoint all_digits (s : string) : bool :=
  match s with
  | EmptyString => true
  | String c s' => is_digit c && all_digits s'
  end.

Inductive grouped : string -> Prop :=
| grouped_first (d : string) :
    (1 <= String.length d <= 3)%nat -> all_digits d = true -> grouped d
| grouped_next (s d : string) :
    grouped s -> String.length d = 3%nat -> all_digits d = true ->
    grouped (s ++ "," ++ d)%string.

Definition two_decimals (s : string) : Prop :=
  exists sign body cents,
    s = (sign ++ body ++ "." ++ cents)%string
    /\ (sign = "" \/ sign = "-")
    /\ grouped body
    /\ String.length cents = 2%nat
    /\ all_digits cents = true.

(** The number a string of digits denotes, its commas skipped. *)
Definition digit_value (c : ascii) : Z := Z.of_nat (nat_of_ascii c) - 48.

Fixpoint read_digits (acc : Z) (s : string) : Z :=
  match s with
  | EmptyString => acc
  | String c s' =>
      if Ascii.eqb c "," then read_digits acc s'
      else read_digits (10 * acc + digit_value c) s'
  end.

(** The shape of an amount printed without grouping. *)
Definition plain_two_decimals (s : string) : Prop :=
  exists sign body cents,
    s = (sign ++ body ++ "." ++ cents)%string
    /\ (sign = "" \/ sign = "-")
    /\ (1 <= String.length body)%nat
    /\ all_digits body = true
    /\ String.length cents = 2%nat
    /\ all_digits cents = true.

(** A UTF-8 character: a byte followed by continuation bytes only; after
    the first one of a string, the byte is not a continuation byte. *)
Fixpoint all_continuation (s : string) : bool :=
  match s with
  | EmptyString => true
  | String c s' => is_continuation c && all_continuation s'
  end.

Definition one_char (p : string) : bool :=
  match p with
  | EmptyString => false
  | String _ s' => all_continuation s'
  end.

Definition char_start (p : string) : bool :=
  match p with
  | EmptyString => false
  | String c s' => negb (is_continuation c) && all_continuation s'
  end.

(** ** Sample data *)

Definition sample_client : Client.t :=
  {| Client.name := PStr "Acme"; Client.email := PStr "billing@acme.example";
     Client.address := PStr "1 Main Street"; Client.contact := PNone |}.

(** Three desks at 40 with two integer charges. *)
Definition desk_item : Item.t :=
  {| Item.name := PStr "desk"; Item.qty := PyInt 3; Item.price := PyInt 40;
     Item.charge_types := None; Item.charge_amounts := Some [PyInt 5; PyInt 2] |}.

(** Two units at 10.0 and no extra charges. *)
Definition plain_item : Item.t :=
  {| Item.name := PStr "widget"; Item.qty := PyInt 2; Item.price := PyFloat 10;
     Item.charge_types := None; Item.charge_amounts := None |}.

(** One unit at the given price. *)
Definition unit_item (p : float) : Item.t :=
  {| Item.name := PStr "unit"; Item.qty := PyInt 1; Item.price := PyFloat p;
     Item.charge_types := None; Item.charge_amounts := None |}.

(** The invoice of the scenario: one item, tax rate 0.1, no discount. *)
Definition scenario_invoice : Invoice.t :=
  {| Invoice.client := sample_client;
     Invoice.items := [plain_item];
     Invoice.invoice_date := 0;
     Invoice.invoice_number := "INV-1";
     Invoice.tax_rate := PNum (PyFloat 0.1);
     Invoice.discount := PNum (PyFloat 0);
     Invoice.discount_type := PStr "flat" |}.

(** An invoice with eight items, more than the table's fixed allotment. *)
Definition crowded_invoice : Invoice.t :=
  {| Invoice.client := sample_client;
     Invoice.items := repeat plain_item 8;
     Invoice.invoice_date := 0;
     Invoice.invoice_number := "INV-2";
     Invoice.tax_rate := PNum (PyFloat 0);
     Invoice.discount := PNum (PyFloat 0);
     Invoice.discount_type := PStr "flat" |}.

(** The scenario's invoice after [set_discount("ten", "flat")]. *)
Definition text_discount_invoice : Invoice.t :=
  {| Invoice.client := sample_client;
     Invoice.items := [plain_item];
     Invoice.invoice_date := 0;
     Invoice.invoice_number := "INV-1";
     Invoice.tax_rate := PNum (PyFloat 0.1);
     Invoice.discount := PStr "ten";
     Invoice.discount_type := PStr "flat" |}.

(** A payload without a client, and one whose only item has no name. *)
Definition no_client_payload : pyval :=
  PDict [ ("items", PList []) ].

Definition nameless_item_payload : pyval :=
  PDict [ ("quantity", PNum (PyInt 1)); ("price", PNum (PyInt 3)) ].

(** An item payload without charge fields. *)
Definition bare_item_payload : pyval :=
  PDict [ ("name", PStr "pen"); ("quantity", PNum (PyInt 4));
          ("price", PNum (PyFloat 1.5)) ].

(** A payload with a discount type and no discount. *)
Definition type_only_payload : pyval :=
  PDict [ ("client", PDict [ ("name", PStr "Acme");
                             ("email", PStr "billing@acme.example");
                             ("address", PStr "1 Main Street") ]);
          ("items", PList [ bare_item_payload ]);
          ("discount_type", PStr "percentage") ].

(** An invoice whose second item has a charge label that is not a
    string. *)
Definition bad_label_invoice : Invoice.t :=
  {| Invoice.client := sample_client;
     Invoice.items :=
       [ plain_item;
         {| Item.name := PStr "crate"; Item.qty := PyInt 1;
            Item.price := PyFloat 10;
            Item.charge_types := Some [PNum (PyInt 7)];
            Item.charge_amounts := Some [PyFloat 5] |} ];
     Invoice.invoice_date := 0;
     Invoice.invoice_number := "INV-3";
     Invoice.tax_rate := PNum (PyFloat 0);
     Invoice.discount := PNum (PyFloat 0);
     Invoice.discount_type := PStr "flat" |}.

(** An invoice whose first item has a number for a name, and whose second
    item has a charge label that is not a string. *)
Definition bad_name_invoice : Invoice.t :=
  {| Invoice.client := sample_client;
     Invoice.items :=
       [ {| Item.name := PNum (PyInt 5); Item.qty := PyInt 1;
            Item.price := PyFloat 10;
            Item.charge_types := None; Item.charge_amounts := None |};
         {| Item.name := PStr "crate"; Item.qty := PyInt 1;
            Item.price := PyFloat 10;
            Item.charge_types := Some [PNum (PyInt 7)];
            Item.charge_amounts := Some [PyFloat 5] |} ];
     Invoice.invoice_date := 0;
     Invoice.invoice_number := "INV-4";
     Invoice.tax_rate := PNum (PyFloat 0);
     Invoice.discount := PNum (PyFloat 0);
     Invoice.discount_type := PStr "flat" |}.

(** An item with two charge labels. *)
Definition labelled_item : Item.t :=
  {| Item.name := PStr "crate"; Item.qty := PyInt 1; Item.price := PyFloat 10;
     Item.charge_types := Some [PStr "shipping"; PStr "duty"];
     Item.charge_amounts := Some [PyFloat 5; PyFloat 1] |}.

(** The same scenario as a request payload. *)
Definition scenario_payload : pyval :=
  PDict [ ("client", PDict [ ("name", PStr "Acme");
                             ("email", PStr "billing@acme.example");
                             ("address", PStr "1 Main Street") ]);
          ("items", PList [ PDict [ ("name", PStr "widget");
                                    ("quantity", PNum (PyInt 2));
                                    ("price", PNum (PyInt 10)) ] ]);
          ("tax_rate", PNum (PyFloat 0.1));
          ("discount", PNum (PyInt 0)) ].

(** An item payload with three charge labels and one charge amount, and a
    fractional quantity. *)
Definition mismatched_payload : pyval :=
  PDict [ ("name", PStr "crate");
          ("quantity", PNum (PyFloat 2.5));
          ("price", PNum (PyInt 10));
          ("charge_types", PList [PStr "shipping"; PStr "packing"; PStr "duty"]);
          ("charge_amounts", PList [PNum (PyInt 5)]) ].

(** A runtime that reads no number from text. *)
Definition numeric_only_runtime : runtime :=
  {| str_to_int := fun _ => None;
     str_to_float := fun _ => None;
     float_repr := fun _ => "";
     int_max_str_digits := 4300;
     builtin_sum := CompensatedSum;
     long_max := 2 ^ 63 - 1;
     markup_error := fun _ => None |}.

(** The same runtime with the summation of the older interpreters. *)
Definition plain_sum_runtime : runtime :=
  {| str_to_int := fun _ => None;
     str_to_float := fun _ => None;
     float_repr := fun _ => "";
     int_max_str_digits := 4300;
     builtin_sum := PlainSum;
     long_max := 2 ^ 63 - 1;
     markup_error := fun _ => None |}.

(** An item whose quantity does not fit a float. *)
Definition huge_qty_item : Item.t :=
  {| Item.name := PStr "bolt"; Item.qty := PyInt (10 ^ 400);
     Item.price := PyFloat 1.5;
     Item.charge_types := None; Item.charge_amounts := None |}.

(** ** Basic facts *)

Lemma is_str_true (v : pyval) (s : string) :
  is_str v s = true <-> v = PStr s.
Proof.
  destruct v; simpl; split; intros H; try discriminate.
  - apply String.eqb_eq in H. now subst.
  - injection H as ->. apply String.eqb_refl.
Qed.

Lemma is_str_false (v : pyval) (s : string) :
  v <> PStr s -> is_str v s = false.
Proof.
  intros H. destruct (is_str v s) eqn:E; [| reflexivity].
  apply is_str_true in E. contradiction.
Qed.

(** Adding the float zero changes nothing but the sign of a negative
    zero. *)
Lemma float_add_0_r (x : float) :
  (x + 0)%float = x \/ (x = (-0)%float /\ (x + 0)%float = 0%float).
Proof.
  assert (H : Prim2SF (x + 0)%float = SF64add (Prim2SF x) (S754_zero false))
    by (rewrite add_spec; reflexivity).
  destruct (Prim2SF x) as [s | s | | s m e] eqn:E.
  - destruct s.
    + right. split; apply Prim2SF_inj; [rewrite E | rewrite H]; reflexivity.
    + left. apply Prim2SF_inj. rewrite H, E. reflexivity.
  - left. apply Prim2SF_inj. rewrite H, E. reflexivity.
  - left. apply Prim2SF_inj. rewrite H, E. reflexivity.
  - left. apply Prim2SF_inj. rewrite H, E. reflexivity.
Qed.

(** ** Sums *)

(** Closed computations that involve [sum] are checked under each of the
    two algorithms. *)
Ltac each_summation rt :=
  let r := fresh "r" in
  let s := fresh "s" in
  generalize rt; intros r; destruct r as [? ? ? ? s ? ?]; destruct s;
  reflexivity.

Lemma py_sum_nil (rt : runtime) : py_sum rt [] = Ok (PyInt 0).
Proof.
  unfold py_sum, sum_iter, sum_start. destruct (builtin_sum rt); reflexivity.
Qed.

Lemma sum_loop_floats_plain (rt : runtime) (cs : list float) (a : float) :
  sum_loop rt (SumObject (PyFloat a)) (map Ok (map PyFloat cs))
  = Ok (PyFloat (fold_left PrimFloat.add cs a)).
Proof.
  revert a. induction cs as [| c cs IH]; intros a; simpl; [reflexivity |].
  apply IH.
Qed.

Lemma sum_loop_floats_compensated (rt : runtime) (cs : list float) (f c : float) :
  sum_loop rt (SumFloat f c) (map Ok (map PyFloat cs))
  = Ok (PyFloat (flush (fst (neumaier f c cs)) (snd (neumaier f c cs)))).
Proof.
  revert f c. induction cs as [| x cs IH]; intros f c; simpl; [reflexivity |].
  apply IH.
Qed.

(** [sum] on a list of floats, under either algorithm. *)
Lemma py_sum_floats (rt : runtime) (cs : list float) :
  py_sum rt (map PyFloat cs)
  = Ok (match cs with [] => PyInt 0 | _ :: _ => PyFloat (float_total rt cs) end).
Proof.
  destruct cs as [| x cs]; [apply py_sum_nil |].
  unfold py_sum, sum_iter, sum_start, float_total.
  destruct (builtin_sum rt).
  - unfold float_sum. simpl. apply sum_loop_floats_plain.
  - cbn [map sum_loop bind sum_step]. 
    change (int_to_float 0) with (Ok (float_of_Z 0)). cbn [bind].
    rewrite sum_loop_floats_compensated. unfold sum_compensated, flush.
    destruct (neumaier (float_of_Z 0 + x) 0 cs) as [f c]. reflexivity.
Qed.

Lemma sum_loop_ints_object (rt : runtime) (cs : list num) (a : Z) :
  forallb is_int cs = true ->
  sum_loop rt (SumObject (PyInt a)) (map Ok cs)
  = Ok (PyInt (a + fold_right Z.add 0 (map int_value cs))).
Proof.
  revert a. induction cs as [| c cs IH]; intros a H; simpl.
  - f_equal. f_equal. lia.
  - simpl in H. apply andb_true_iff in H as [Hc Hcs].
    destruct c as [z | f]; [| discriminate]. simpl.
    rewrite IH by exact Hcs. f_equal. f_equal. lia.
Qed.

Lemma sum_loop_ints_long (rt : runtime) (cs : list num) (a : Z) :
  forallb is_int cs = true ->
  sum_loop rt (SumInt a) (map Ok cs)
  = Ok (PyInt (a + fold_right Z.add 0 (map int_value cs))).
Proof.
  revert a. induction cs as [| c cs IH]; intros a H; simpl.
  - f_equal. f_equal. lia.
  - simpl in H. apply andb_true_iff in H as [Hc Hcs].
    destruct c as [z | f]; [| discriminate]. simpl.
    destruct (fits_long rt z && fits_long rt (a + z)); simpl.
    + rewrite IH by exact Hcs. f_equal. f_equal. lia.
    + rewrite sum_loop_ints_object by exact Hcs. f_equal. f_equal. lia.
Qed.

(** On integers every algorithm is exact. *)
Lemma sum_loop_ints_start (rt : runtime) (cs : list num) :
  forallb is_int cs = true ->
  sum_loop rt (sum_start rt) (map Ok cs)
  = Ok (PyInt (fold_right Z.add 0 (map int_value cs))).
Proof.
  intros H. unfold sum_start. destruct (builtin_sum rt).
  - now rewrite sum_loop_ints_object.
  - now rewrite sum_loop_ints_long.
Qed.

(** ** Line totals *)

Lemma price_cal_float_item (rt : runtime) (nm : pyval) (q p : float)
    (types : option (list pyval)) (cs : list float) :
  Item.price_cal rt (float_item nm q p types cs)
  = Ok (PyFloat (q * p + float_total rt cs)%float).
Proof.
  unfold Item.price_cal, float_item. simpl.
  rewrite py_sum_floats. destruct cs; [| reflexivity].
  unfold float_total. destruct (builtin_sum rt); reflexivity.
Qed.

Lemma price_cal_handler_item (rt : runtime) (nm : pyval) (q : Z) (p : float)
    (types : option (list pyval)) (cs : list float) :
  Item.price_cal rt (handler_item nm q p types cs)
  = (q' <- int_to_float q ;; Ok (PyFloat (q' * p + float_total rt cs)%float)).
Proof.
  unfold Item.price_cal, handler_item. simpl.
  destruct (int_to_float q) as [q' | e]; simpl; [| reflexivity].
  rewrite py_sum_floats. destruct cs; [| reflexivity].
  unfold float_total. destruct (builtin_sum rt); reflexivity.
Qed.

Lemma price_cal_exact (rt : runtime) (item : Item.t) :
  exact_item item = true ->
  Item.price_cal rt item = Ok (PyInt (exact_line_total item)).
Proof.
  unfold exact_item, exact_line_total, Item.price_cal. intros H.
  apply andb_true_iff in H as [H Hcs]. apply andb_true_iff in H as [Hq Hp].
  destruct (Item.qty item) as [q | ]; [| discriminate].
  destruct (Item.price item) as [p | ]; [| discriminate].
  simpl. unfold py_sum, sum_iter.
  rewrite sum_loop_ints_start by exact Hcs. reflexivity.
Qed.

(** With one float charge, or none, the two algorithms agree. *)
Lemma float_total_one (rt : runtime) (c : float) :
  float_total rt [c] = (0 + c)%float.
Proof.
  unfold float_total. destruct (builtin_sum rt); reflexivity.
Qed.

Lemma float_total_nil (rt : runtime) : float_total rt [] = 0%float.
Proof.
  unfold float_total. destruct (builtin_sum rt); reflexivity.
Qed.

(** C4. The line total of an item is [qty * price + sum(charge_amounts)]
    in Python's arithmetic, whichever algorithm the builtin [sum] uses:
    on floats it is the float [q * p + s], where [s] is what [sum] makes of
    the charges (the quantity converted by [float] first when it is an
    [int]); on integers it is the exact integer; with the single charge 5 it
    is [qty * price + 5].  The algorithm shows in the result: the charges
    1e16, 1.0 and 1.0 add up to 1e16 where [sum] adds plainly and to
    10000000000000002.0 where it compensates. *)
Theorem price_cal_line_total (rt : runtime) :
  (forall item : Item.t,
      Item.price_cal rt item
      = (base <- py_mul (Item.qty item) (Item.price item) ;;
         extras <- py_sum rt (Item.or_empty (Item.charge_amounts item)) ;;
         py_add base extras))
  /\ (forall cs : list float,
         py_sum rt (map PyFloat cs)
         = Ok (match cs with
               | [] => PyInt 0
               | _ :: _ => PyFloat (float_total rt cs)
               end))
  /\ (forall nm q p types cs,
         Item.price_cal rt (float_item nm q p types cs)
         = Ok (PyFloat (q * p + float_total rt cs)%float))
  /\ (forall nm q p types cs,
         Item.price_cal rt (handler_item nm q p types cs)
         = (q' <- int_to_float q ;;
            Ok (PyFloat (q' * p + float_total rt cs)%float)))
  /\ (forall item : Item.t,
         exact_item item = true ->
         Item.price_cal rt item = Ok (PyInt (exact_line_total item)))
  /\ (forall nm q p,
         Item.price_cal rt (float_item nm q p (Some [PStr "shipping"]) [5%float])
         = Ok (PyFloat (q * p + 5)%float))
  /\ (forall nm q p,
         Item.price_cal rt {| Item.name := nm; Item.qty := PyInt q;
                              Item.price := PyInt p;
                              Item.charge_types := Some [PStr "shipping"];
                              Item.charge_amounts := Some [PyInt 5] |}
         = Ok (PyInt (q * p + 5)))
  /\ (forall nm types,
         Item.price_cal rt (float_item nm 1 0 types [1e16; 1; 1]%float)
         = Ok (PyFloat (match builtin_sum rt with
                        | PlainSum => 1e16
                        | CompensatedSum => 10000000000000002
                        end))).
Proof.
  split; [reflexivity |].
  split; [apply py_sum_floats |].
  split; [apply price_cal_float_item |].
  split; [apply price_cal_handler_item |].
  split; [apply price_cal_exact |].
  split.
  { intros nm q p. rewrite price_cal_float_item, float_total_one. reflexivity. }
  split.
  { intros nm q p. rewrite price_cal_exact by reflexivity.
    unfold exact_line_total. simpl. reflexivity. }
  intros nm types. rewrite price_cal_float_item. unfold float_total.
  destruct (builtin_sum rt); reflexivity.
Qed.

Lemma price_cal_line_total_witness :
  exact_item desk_item = true
  /\ Item.price_cal numeric_only_runtime desk_item = Ok (PyInt 127).
Proof.
  split; [reflexivity |].
  apply (proj1 (proj2 (proj2 (proj2 (proj2
           (price_cal_line_total numeric_only_runtime)))))).
  reflexivity.
Defined.

(** C10, as the specification states it, fails: the line total of an item
    without charges is not always computed.  A quantity of [10 ** 400] is
    an [int] too large for [float], so multiplying it by the price 1.5
    raises [OverflowError]. *)
Lemma price_cal_not_total :
  ~ (forall (rt : runtime) (item : Item.t),
        Item.charge_amounts item = None ->
        exists r, Item.price_cal rt item = Ok r).
Proof.
  intros H.
  destruct (H numeric_only_runtime huge_qty_item eq_refl) as [r Hr].
  assert (E : Item.price_cal numeric_only_runtime huge_qty_item
              = Raise OverflowError) by (vm_compute; reflexivity).
  rewrite E in Hr. discriminate Hr.
Qed.

(** C10, amended. With [charge_amounts = None] the line total is computed
    as for the empty list: the call fails only where [qty * price] itself
    fails, and otherwise returns that product (a negative float zero comes
    back as the positive zero, which Python counts as equal). *)
Theorem price_cal_without_charges (rt : runtime) (item : Item.t) :
  Item.charge_amounts item = None ->
  Item.price_cal rt item
  = Item.price_cal rt (with_charge_amounts item (Some []))
  /\ (forall e, py_mul (Item.qty item) (Item.price item) = Raise e ->
                Item.price_cal rt item = Raise e)
  /\ (forall b, py_mul (Item.qty item) (Item.price item) = Ok b ->
        exists r, Item.price_cal rt item = Ok r
                  /\ (r = b \/ (b = PyFloat (-0)%float /\ r = PyFloat 0%float))).
Proof.
  intros Hnone. unfold Item.price_cal, with_charge_amounts.
  cbn [Item.qty Item.price Item.charge_amounts].
  rewrite Hnone. cbn [Item.or_empty]. rewrite py_sum_nil. cbn [bind].
  split; [reflexivity |]. split.
  - intros e He. rewrite He. reflexivity.
  - intros b Hb. rewrite Hb. cbn [bind]. destruct b as [z | x]; simpl.
    + exists (PyInt (z + 0)). split; [reflexivity |]. left. f_equal. lia.
    + exists (PyFloat (x + 0)%float). split; [reflexivity |].
      destruct (float_add_0_r x) as [H | [H1 H2]].
      * left. now rewrite H.
      * right. split; [now rewrite H1 | now rewrite H2].
Qed.

Lemma price_cal_without_charges_witness :
  Item.charge_amounts plain_item = None
  /\ Item.price_cal numeric_only_runtime plain_item
     = Item.price_cal numeric_only_runtime
         (with_charge_amounts plain_item (Some []))
  /\ Item.price_cal numeric_only_runtime plain_item = Ok (PyFloat 20).
Proof.
  split; [reflexivity |]. split.
  - apply (price_cal_without_charges numeric_only_runtime plain_item).
    reflexivity.
  - reflexivity.
Defined.

(** ** Discount and tax *)

(** C2. [apply_discount] returns [subtotal * (1 - discount)] for the type
    ['percentage'] and [subtotal - discount] for every other type, whatever
    it is; the flat result is not clamped, so it can be negative. *)
Theorem apply_discount_cases :
  (forall subtotal discount,
      apply_discount subtotal discount (PStr "percentage")
      = (k <- py_sub (PyInt 1) discount ;; py_mul subtotal k))
  /\ (forall s d : float,
         apply_discount (PyFloat s) (PyFloat d) (PStr "percentage")
         = Ok (PyFloat (s * (1 - d))%float))
  /\ (forall subtotal discount discount_type,
         discount_type <> PStr "percentage" ->
         apply_discount subtotal discount discount_type
         = py_sub subtotal discount)
  /\ (forall (s d : float) (discount_type : string),
         discount_type <> "percentage" ->
         apply_discount (PyFloat s) (PyFloat d) (PStr discount_type)
         = Ok (PyFloat (s - d)%float))
  /\ apply_discount (PyFloat 10) (PyFloat 25) (PStr "flat") = Ok (PyFloat (-15))
  /\ apply_discount (PyInt 10) (PyInt 25) (PStr "bogus") = Ok (PyInt (-15)).
Proof.
  split; [reflexivity |].
  split; [reflexivity |].
  split.
  { intros s d t Ht. unfold apply_discount. now rewrite (is_str_false _ _ Ht). }
  split.
  { intros s d t Ht. unfold apply_discount.
    rewrite is_str_false; [reflexivity |]. intros H. now injection H. }
  split; reflexivity.
Qed.

Lemma apply_discount_cases_witness :
  PStr "half price" <> PStr "percentage"
  /\ apply_discount (PyFloat 80) (PyFloat 0.5) (PStr "half price")
     = Ok (PyFloat 79.5).
Proof.
  split; [discriminate |].
  rewrite (proj1 (proj2 (proj2 apply_discount_cases))); [reflexivity | discriminate].
Defined.

(** C3. [apply_tax] returns [amount * (1 + tax_rate)]; on the invoice with
    one item of quantity 2 and price 10, tax rate 0.1 and no discount, the
    subtotal is 20 and the total 22.0, also when that invoice is built from
    the request payload. *)
Theorem apply_tax_total :
  (forall amount tax_rate,
      apply_tax amount tax_rate
      = (k <- py_add (PyInt 1) tax_rate ;; py_mul amount k))
  /\ (forall a r : float,
         apply_tax (PyFloat a) (PyFloat r) = Ok (PyFloat (a * (1 + r))%float))
  /\ (forall a r : Z, apply_tax (PyInt a) (PyInt r) = Ok (PyInt (a * (1 + r))))
  /\ (forall rt,
         calculate_subtotal rt (Invoice.items scenario_invoice)
         = Ok (PyFloat 20))
  /\ (forall rt,
         totals rt scenario_invoice = Ok (PyFloat 20, PyFloat 20, PyFloat 22))
  /\ (forall rt now ident,
         (r <- create_invoice rt scenario_payload now ident ;;
          totals rt (fst r))
         = Ok (PyFloat 20, PyFloat 20, PyFloat 22)).
Proof.
  repeat split; try reflexivity; intros rt; intros; each_summation rt.
Qed.

(** ** The setters *)

(** C6, as the specification states it, fails: a string is stored like
    any other value and nothing is raised. *)
Lemma set_tax_rate_accepts_text :
  ~ (forall (invoice : Invoice.t) (rate : pyval),
        Invoice.set_tax_rate invoice rate = Raise ValidationError
        <-> is_numeric rate = false).
Proof.
  intros H.
  destruct (H scenario_invoice (PStr "ten percent")) as [_ H2].
  specialize (H2 eq_refl). discriminate H2.
Qed.

(** C6, amended. [set_tax_rate] stores whatever it is given, a number or
    not, leaves the other fields as they are, and never fails. *)
Theorem set_tax_rate_overwrites (invoice : Invoice.t) (rate : pyval) :
  exists invoice',
    Invoice.set_tax_rate invoice rate = Ok invoice'
    /\ Invoice.tax_rate invoice' = rate
    /\ Invoice.items invoice' = Invoice.items invoice
    /\ Invoice.client invoice' = Invoice.client invoice
    /\ Invoice.discount invoice' = Invoice.discount invoice
    /\ Invoice.discount_type invoice' = Invoice.discount_type invoice
    /\ Invoice.invoice_number invoice' = Invoice.invoice_number invoice
    /\ Invoice.invoice_date invoice' = Invoice.invoice_date invoice.
Proof.
  eexists. split; [reflexivity |]. simpl. repeat split.
Qed.

(** A rate that is not a number is noticed only when the total is
    computed, as a [TypeError]. *)
Lemma totals_text_rate (rt : runtime) :
  (invoice <- Invoice.set_tax_rate scenario_invoice (PStr "ten percent") ;;
   totals rt invoice) = Raise TypeError.
Proof. each_summation rt. Qed.

(** ** The subtotal *)

Lemma mapM_map_Ok {A B : Type} (f : A -> result B) (xs : list A) (ys : list B) :
  mapM f xs = Ok ys -> map f xs = map Ok ys.
Proof.
  revert ys. induction xs as [| x xs IH]; intros ys H; simpl in *.
  - injection H as <-. reflexivity.
  - destruct (f x) as [y | e]; simpl in *; [| discriminate].
    destruct (mapM f xs) as [ys' | e]; simpl in *; [| discriminate].
    injection H as <-. simpl. f_equal. now apply IH.
Qed.

Lemma subtotal_lines (rt : runtime) (items : list Item.t) (lines : list num) :
  mapM (Item.price_cal rt) items = Ok lines ->
  calculate_subtotal rt items = py_sum rt lines.
Proof.
  intros H. unfold calculate_subtotal, py_sum.
  now rewrite (mapM_map_Ok _ _ _ H).
Qed.

Lemma mapM_price_cal_exact (rt : runtime) (items : list Item.t) :
  forallb exact_item items = true ->
  mapM (Item.price_cal rt) items
  = Ok (map (fun item => PyInt (exact_line_total item)) items).
Proof.
  induction items as [| item rest IH]; intros H; simpl in *; [reflexivity |].
  apply andb_true_iff in H as [Hi Hr].
  rewrite (price_cal_exact rt _ Hi), (IH Hr). reflexivity.
Qed.

Lemma subtotal_exact (rt : runtime) (items : list Item.t) :
  forallb exact_item items = true ->
  calculate_subtotal rt items
  = Ok (PyInt (fold_right Z.add 0 (map exact_line_total items))).
Proof.
  intros H. rewrite (subtotal_lines rt _ _ (mapM_price_cal_exact rt _ H)).
  unfold py_sum, sum_iter. rewrite sum_loop_ints_start.
  - rewrite map_map. reflexivity.
  - rewrite forallb_forall. intros x Hx. apply in_map_iff in Hx as [i [<- _]].
    reflexivity.
Qed.

Lemma forallb_Permutation {A : Type} (p : A -> bool) (l l' : list A) :
  Permutation l l' -> forallb p l = forallb p l'.
Proof.
  induction 1 as [| x l l' _ IH | x y l | l l' l'' _ IH1 _ IH2]; simpl.
  - reflexivity.
  - now rewrite IH.
  - destruct (p x), (p y); reflexivity.
  - now rewrite IH1.
Qed.

Lemma Zsum_Permutation (l l' : list Z) :
  Permutation l l' -> fold_right Z.add 0 l = fold_right Z.add 0 l'.
Proof.
  induction 1 as [| x l l' _ IH | x y l | l l' l'' _ IH1 _ IH2]; simpl; lia.
Qed.

Lemma float_neq (x y : float) : PrimFloat.Leibniz.eqb x y = false -> x <> y.
Proof.
  intros H E. apply FloatAxioms.Leibniz.eqb_spec in E. congruence.
Qed.

(** The four line totals 1e16, 1e-16, 3.0 and 2.0 add up to
    10000000000000006.0, and with the last two exchanged to
    10000000000000004.0, under the plain and under the compensated
    summation alike. *)
Lemma unit_subtotals (rt : runtime) :
  calculate_subtotal rt
    [unit_item 1e16; unit_item 1e-16; unit_item 3; unit_item 2]
  = Ok (PyFloat 10000000000000006)
  /\ calculate_subtotal rt
       [unit_item 1e16; unit_item 1e-16; unit_item 2; unit_item 3]
     = Ok (PyFloat 10000000000000004).
Proof.
  split; each_summation rt.
Qed.

(** C5, as the specification states it, fails: float addition rounds, so
    the order of the items can change the subtotal, whichever algorithm the
    builtin [sum] uses.  The four line totals are 1e16, 1e-16, 3.0 and 2.0;
    exchanging the last two items changes the subtotal from
    10000000000000006.0 to 10000000000000004.0. *)
Lemma calculate_subtotal_order_matters :
  ~ (exists rt : runtime,
        forall items items' : list Item.t,
          Permutation items items' ->
          calculate_subtotal rt items = calculate_subtotal rt items').
Proof.
  intros [rt H].
  specialize (H [unit_item 1e16; unit_item 1e-16; unit_item 3; unit_item 2]
                [unit_item 1e16; unit_item 1e-16; unit_item 2; unit_item 3]).
  destruct (unit_subtotals rt) as [E1 E2]. rewrite E1, E2 in H.
  assert (E : Ok (PyFloat 10000000000000006) = Ok (PyFloat 10000000000000004)).
  { apply H. do 2 apply perm_skip. apply perm_swap. }
  apply (f_equal (fun r => match r with
                           | Ok (PyFloat f) => f
                           | _ => 0%float
                           end)) in E.
  revert E. apply float_neq. reflexivity.
Qed.

(** C5, amended. The subtotal is what the builtin [sum] makes of the line
    totals, taken in the order of the items; when every number of every
    item is an integer the arithmetic is exact and permuting the items
    leaves the subtotal unchanged. *)
Theorem calculate_subtotal_sum (rt : runtime) :
  (forall items lines,
      mapM (Item.price_cal rt) items = Ok lines ->
      calculate_subtotal rt items = py_sum rt lines)
  /\ (forall items items',
         Permutation items items' ->
         forallb exact_item items = true ->
         calculate_subtotal rt items = calculate_subtotal rt items'
         /\ calculate_subtotal rt items
            = Ok (PyInt (fold_right Z.add 0 (map exact_line_total items)))).
Proof.
  split.
  - intros items lines H. apply subtotal_lines, H.
  - intros items items' Hp Hex.
    rewrite (subtotal_exact rt items) by exact Hex.
    rewrite (subtotal_exact rt items')
      by (rewrite <- (forallb_Permutation _ _ _ Hp); exact Hex).
    split; [| reflexivity].
    f_equal. f_equal.
    apply Zsum_Permutation, Permutation_map, Hp.
Qed.

Lemma calculate_subtotal_sum_witness :
  mapM (Item.price_cal numeric_only_runtime) [plain_item; desk_item]
  = Ok [PyFloat 20; PyInt 127]
  /\ calculate_subtotal numeric_only_runtime [plain_item; desk_item]
     = Ok (PyFloat 147)
  /\ forallb exact_item [desk_item; desk_item] = true
  /\ calculate_subtotal numeric_only_runtime [desk_item; desk_item]
     = Ok (PyInt 254).
Proof.
  split; [reflexivity |]. split.
  - rewrite (proj1 (calculate_subtotal_sum numeric_only_runtime)
               [plain_item; desk_item] [PyFloat 20; PyInt 127] eq_refl).
    reflexivity.
  - split; [reflexivity |].
    apply (proj2 (calculate_subtotal_sum numeric_only_runtime)
             [desk_item; desk_item] [desk_item; desk_item]
             (Permutation_refl _) eq_refl).
Defined.

(** ** The line-item table *)

Lemma mapM_length {A B : Type} (f : A -> result B) (xs : list A) (ys : list B) :
  mapM f xs = Ok ys -> List.length ys = List.length xs.
Proof.
  revert ys. induction xs as [| x xs IH]; intros ys H; simpl in *.
  - injection H as <-. reflexivity.
  - destruct (f x) as [y | e]; simpl in *; [| discriminate].
    destruct (mapM f xs) as [ys' | e]; simpl in *; [| discriminate].
    injection H as <-. simpl. f_equal. now apply IH.
Qed.

Lemma mapM_nth_error {A B : Type} (f : A -> result B) (xs : list A) (ys : list B) :
  mapM f xs = Ok ys ->
  forall i x, nth_error xs i = Some x ->
              exists y, f x = Ok y /\ nth_error ys i = Some y.
Proof.
  revert ys. induction xs as [| x0 xs IH]; intros ys H i x Hi; simpl in *.
  - destruct i; discriminate.
  - destruct (f x0) as [y0 | e] eqn:E0; simpl in *; [| discriminate].
    destruct (mapM f xs) as [ys' | e]; simpl in *; [| discriminate].
    injection H as <-. destruct i as [| i]; simpl in *.
    + injection Hi as <-. now exists y0.
    + now apply (IH ys' eq_refl).
Qed.

Lemma pad_rows_spec (item_data : list row) :
  pad_rows item_data
  = item_data ++ repeat blank_row (7 - List.length item_data).
Proof.
  funelim (pad_rows item_data).
  - rewrite H. rewrite <- app_assoc. f_equal.
    rewrite List.length_app. simpl List.length.
    replace (7 - List.length item_data)%nat
      with (S (7 - (List.length item_data + 1)))%nat by lia.
    reflexivity.
  - replace (7 - List.length item_data)%nat with 0%nat by lia.
    simpl. now rewrite app_nil_r.
Qed.

Lemma pad_rows_length (item_data : list row) :
  List.length (pad_rows item_data) = Nat.max 7 (List.length item_data).
Proof.
  rewrite pad_rows_spec, List.length_app, repeat_length. lia.
Qed.

(** A paragraph is built only from a string that the markup parser
    accepts. *)
Lemma new_paragraph_inv (rt : runtime) (text : pyval) (style : string)
    (f : flowable) :
  new_paragraph rt text style = Ok f ->
  f = Paragraph text style
  /\ exists s, text = PStr s /\ markup_error rt s = None.
Proof.
  unfold new_paragraph. intros H.
  destruct text as [| | | s | |]; try discriminate H.
  destruct (markup_error rt s) eqn:E; [discriminate H |].
  injection H as <-. eauto.
Qed.

Lemma new_paragraph_not_string (rt : runtime) (text : pyval) (style : string) :
  (forall s, text <> PStr s) ->
  new_paragraph rt text style = Raise AttributeError.
Proof.
  intros H. destruct text as [| | | s | |]; try reflexivity.
  now destruct (H s).
Qed.

Lemma item_row_inv (rt : runtime) (currency : pyval) (item : Item.t) (r : row) :
  item_row rt currency item = Ok r ->
  exists desc p q line t,
    match Item.charge_types item with
    | None | Some [] => Ok "-"
    | Some l => join_comma l
    end = Ok desc
    /\ format_currency currency (Item.price item) = Ok p
    /\ py_str rt (Item.qty item) = Ok q
    /\ Item.price_cal rt item = Ok line
    /\ format_currency currency line = Ok t
    /\ (exists nm, Item.name item = PStr nm)
    /\ r = [ Paragraph (Item.name item) "tabval";
             Paragraph (PStr desc) "tabval";
             Paragraph (PStr p) "tabval";
             Paragraph (PStr q) "tabval";
             Paragraph (PStr t) "tabval" ].
Proof.
  unfold item_row. intros H.
  destruct (match Item.charge_types item with
            | None | Some [] => Ok "-"
            | Some l => join_comma l
            end) as [desc |] eqn:Ed; cbn [bind] in H; [| discriminate H].
  destruct (new_paragraph rt (Item.name item) "tabval") as [c1 |] eqn:E1;
    cbn [bind] in H; [| discriminate H].
  destruct (new_paragraph rt (PStr desc) "tabval") as [c2 |] eqn:E2;
    cbn [bind] in H; [| discriminate H].
  destruct (format_currency currency (Item.price item)) as [p |] eqn:Ep;
    cbn [bind] in H; [| discriminate H].
  destruct (new_paragraph rt (PStr p) "tabval") as [c3 |] eqn:E3;
    cbn [bind] in H; [| discriminate H].
  destruct (py_str rt (Item.qty item)) as [q |] eqn:Eq;
    cbn [bind] in H; [| discriminate H].
  destruct (new_paragraph rt (PStr q) "tabval") as [c4 |] eqn:E4;
    cbn [bind] in H; [| discriminate H].
  destruct (Item.price_cal rt item) as [line |] eqn:El;
    cbn [bind] in H; [| discriminate H].
  destruct (format_currency currency line) as [t |] eqn:Et;
    cbn [bind] in H; [| discriminate H].
  destruct (new_paragraph rt (PStr t) "tabval") as [c5 |] eqn:E5;
    cbn [bind] in H; [| discriminate H].
  injection H as <-.
  apply new_paragraph_inv in E1 as [-> [nm [Hn _]]].
  apply new_paragraph_inv in E2 as [-> _].
  apply new_paragraph_inv in E3 as [-> _].
  apply new_paragraph_inv in E4 as [-> _].
  apply new_paragraph_inv in E5 as [-> _].
  exists desc, p, q, line, t.
  split; [reflexivity |]. split; [reflexivity |]. split; [reflexivity |].
  split; [reflexivity |]. split; [exact Et |].
  split; [now exists nm | reflexivity].
Qed.

Section TableFacts.
Variable rt : runtime.
Variable currency : pyval.

Lemma append_item_rows_ok (items : list Item.t) (rows item_data : list row) :
  mapM (item_row rt currency) items = Ok rows ->
  append_item_rows rt currency item_data items = Ok (item_data ++ rows).
Proof.
  revert rows item_data.
  induction items as [| item rest IH]; intros rows item_data H; simpl in *.
  - injection H as <-. now rewrite app_nil_r.
  - destruct (item_row rt currency item) as [r | e]; simpl in *; [| discriminate].
    destruct (mapM (item_row rt currency) rest) as [rs | e]; simpl in *;
      [| discriminate].
    injection H as <-. rewrite (IH rs _ eq_refl). now rewrite <- app_assoc.
Qed.

Lemma append_item_rows_raise (items : list Item.t) (item_data : list row) (e : exn) :
  mapM (item_row rt currency) items = Raise e ->
  append_item_rows rt currency item_data items = Raise e.
Proof.
  revert item_data.
  induction items as [| item rest IH]; intros item_data H; simpl in *.
  - discriminate.
  - destruct (item_row rt currency item) as [r | e']; simpl in *; [| exact H].
    apply IH.
    destruct (mapM (item_row rt currency) rest); simpl in *;
      [discriminate | exact H].
Qed.

(** C7. The rendered table is the header row, then one row per item in
    the order of the invoice, then blank rows up to seven rows in all:
    [max 7 (n + 1)] rows, and the row of the [i]-th item is at index
    [i + 1] however many items there are.  The table is rendered exactly
    when the row of every item can be built. *)
Theorem item_table_rows (invoice : Invoice.t) :
  (forall rows,
      mapM (item_row rt currency) (Invoice.items invoice) = Ok rows ->
      exists table,
        item_table rt currency invoice = Ok table
        /\ table = table_headers :: rows
                     ++ repeat blank_row (6 - List.length (Invoice.items invoice))
        /\ List.length table
           = Nat.max 7 (List.length (Invoice.items invoice) + 1)
        /\ List.length rows = List.length (Invoice.items invoice)
        /\ (forall i item, nth_error (Invoice.items invoice) i = Some item ->
              exists r, item_row rt currency item = Ok r
                        /\ nth_error table (S i) = Some r))
  /\ (forall table,
         item_table rt currency invoice = Ok table ->
         exists rows,
           mapM (item_row rt currency) (Invoice.items invoice) = Ok rows
           /\ table = table_headers :: rows
                        ++ repeat blank_row (6 - List.length (Invoice.items invoice))
           /\ List.length table
              = Nat.max 7 (List.length (Invoice.items invoice) + 1)
           /\ (forall i item, nth_error (Invoice.items invoice) i = Some item ->
                 exists r, item_row rt currency item = Ok r
                           /\ nth_error table (S i) = Some r)).
Proof.
  assert (A : forall rows,
      mapM (item_row rt currency) (Invoice.items invoice) = Ok rows ->
      exists table,
        item_table rt currency invoice = Ok table
        /\ table = table_headers :: rows
                     ++ repeat blank_row (6 - List.length (Invoice.items invoice))
        /\ List.length table
           = Nat.max 7 (List.length (Invoice.items invoice) + 1)
        /\ List.length rows = List.length (Invoice.items invoice)
        /\ (forall i item, nth_error (Invoice.items invoice) i = Some item ->
              exists r, item_row rt currency item = Ok r
                        /\ nth_error table (S i) = Some r)).
  { intros rows H. pose proof (mapM_length _ _ _ H) as Hlen.
    exists (table_headers :: rows
            ++ repeat blank_row (6 - List.length (Invoice.items invoice))).
    split; [| split; [reflexivity | split; [| split; [exact Hlen |]]]].
    - unfold item_table. rewrite (append_item_rows_ok _ _ _ H). simpl bind.
      rewrite pad_rows_spec. simpl. rewrite Hlen. reflexivity.
    - cbn [List.length]. rewrite List.length_app, repeat_length, Hlen. lia.
    - intros i item Hi.
      destruct (mapM_nth_error _ _ _ H i item Hi) as [r [Hr Hn]].
      exists r. split; [exact Hr |]. simpl.
      rewrite nth_error_app1; [exact Hn |].
      apply nth_error_Some. rewrite Hn. discriminate. }
  split; [exact A |].
  intros table Ht.
  destruct (mapM (item_row rt currency) (Invoice.items invoice))
    as [rows | e] eqn:E.
  - destruct (A rows eq_refl) as [table' [H1 [H2 [H3 [_ H5]]]]].
    rewrite Ht in H1. injection H1 as <-.
    exists rows. repeat split; assumption.
  - unfold item_table in Ht. rewrite (append_item_rows_raise _ _ _ E) in Ht.
    discriminate Ht.
Qed.

(** X18. A row that cannot be built stops the rendering with the error of
    the first such row: no table with fewer rows is produced.  A row whose
    labels can be joined and whose name is not a string fails with the
    [AttributeError] of the paragraph of the name. *)
Theorem item_table_raise (invoice : Invoice.t) :
  (forall e,
      mapM (item_row rt currency) (Invoice.items invoice) = Raise e ->
      item_table rt currency invoice = Raise e)
  /\ (forall done item rest rows e,
         Invoice.items invoice = done ++ item :: rest ->
         mapM (item_row rt currency) done = Ok rows ->
         item_row rt currency item = Raise e ->
         item_table rt currency invoice = Raise e)
  /\ (forall item desc,
         match Item.charge_types item with
         | None | Some [] => Ok "-"
         | Some l => join_comma l
         end = Ok desc ->
         (forall s, Item.name item <> PStr s) ->
         item_row rt currency item = Raise AttributeError).
Proof.
  split; [| split].
  - intros e H. unfold item_table. now rewrite (append_item_rows_raise _ _ _ H).
  - intros done item rest rows e Hi Hd He. unfold item_table.
    rewrite append_item_rows_raise with (e := e); [reflexivity |].
    rewrite Hi. clear Hi. revert rows Hd.
    induction done as [| x done IH]; intros rows Hd; simpl in *.
    + now rewrite He.
    + destruct (item_row rt currency x) as [r |]; simpl in *; [| discriminate].
      destruct (mapM (item_row rt currency) done) as [rs |]; simpl in *;
        [| discriminate].
      now rewrite (IH rs eq_refl).
  - intros item desc Hd Hn. unfold item_row. rewrite Hd. cbn [bind].
    now rewrite (new_paragraph_not_string _ _ _ Hn).
Qed.
End TableFacts.

Lemma item_table_rows_witness :
  exists rows table,
    mapM (item_row numeric_only_runtime (PStr "USD"))
         (Invoice.items crowded_invoice) = Ok rows
    /\ item_table numeric_only_runtime (PStr "USD") crowded_invoice = Ok table
    /\ List.length table = 9%nat.
Proof.
  eexists.
  destruct (proj1 (item_table_rows numeric_only_runtime (PStr "USD")
                     crowded_invoice) _ eq_refl) as [table [H1 [_ [H3 _]]]].
  exists table. split; [reflexivity |]. split; [exact H1 | exact H3].
Defined.

(** ** Items built from the request payload *)

Lemma mapM_app {A B : Type} (f : A -> result B) (xs xs' : list A) (ys ys' : list B) :
  mapM f xs = Ok ys -> mapM f xs' = Ok ys' ->
  mapM f (xs ++ xs') = Ok (ys ++ ys').
Proof.
  revert ys. induction xs as [| x xs IH]; intros ys H H'; simpl in *.
  - injection H as <-. exact H'.
  - destruct (f x) as [y | e]; simpl in *; [| discriminate].
    destruct (mapM f xs) as [zs | e]; simpl in *; [| discriminate].
    injection H as <-. now rewrite (IH zs eq_refl H').
Qed.

Lemma mapM_repeat {A B : Type} (f : A -> result B) (x : A) (y : B) (k : nat) :
  f x = Ok y -> mapM f (repeat x k) = Ok (repeat y k).
Proof.
  intros H. induction k as [| k IH]; simpl; [reflexivity |].
  now rewrite H, IH.
Qed.

Ltac bind_cases H :=
  repeat match type of H with
         | bind ?r _ = Ok _ =>
             let a := fresh "a" in
             let E := fresh "E" in
             destruct r as [a | ] eqn:E; simpl in H; [| discriminate H]
         end.

Section AppFacts.
Variable rt : runtime.

(** C8. The two charge sequences of an incoming item are padded to the
    length of the longer one before the item is built: the labels with
    empty strings, the amounts with 0.0.  With three labels and one amount
    both sequences have length three and the two added amounts are 0. *)
Theorem item_of_payload_pads
    (item_data : pyval) (types amounts : list pyval) (nm quantity p : pyval)
    (q : Z) (pr : float) (fs : list float) :
  py_get item_data "charge_types" (PList []) = Ok (PList types) ->
  py_get item_data "charge_amounts" (PList []) = Ok (PList amounts) ->
  py_getitem item_data "name" = Ok nm ->
  py_getitem item_data "quantity" = Ok quantity ->
  py_int rt quantity = Ok q ->
  py_getitem item_data "price" = Ok p ->
  py_float rt p = Ok pr ->
  mapM (py_float rt) amounts = Ok fs ->
  let n := Nat.max (List.length types) (List.length amounts) in
  let labels := types ++ repeat (PStr "") (n - List.length types) in
  let charges := map PyFloat (fs ++ repeat 0%float (n - List.length amounts)) in
  item_of_payload rt item_data
  = Ok {| Item.name := nm; Item.qty := PyInt q; Item.price := PyFloat pr;
          Item.charge_types := Some labels;
          Item.charge_amounts := Some charges |}
  /\ List.length labels = n
  /\ List.length charges = n.
Proof.
  intros Ht Ha Hn Hq Hq' Hp Hp' Hfs n labels charges.
  pose proof (mapM_length _ _ _ Hfs) as Hlen.
  split; [| split].
  - unfold item_of_payload. rewrite Ht, Ha. simpl.
    rewrite Hn. simpl. rewrite Hq. simpl. rewrite Hq'. simpl.
    rewrite Hp. simpl. rewrite Hp'. simpl.
    rewrite (mapM_app _ _ _ _ _ Hfs
               (mapM_repeat (py_float rt) (PNum (PyFloat 0)) 0%float _ eq_refl)).
    reflexivity.
  - unfold labels. rewrite List.length_app, repeat_length. lia.
  - unfold charges. rewrite length_map, List.length_app, repeat_length. lia.
Qed.

(** C9. The quantity of a built item is [int(quantity)]: the payload's
    value with any fractional part dropped.  A quantity of 2.5 becomes 2,
    and the line total is computed from 2. *)
Theorem item_of_payload_qty :
  (forall item_data item,
      item_of_payload rt item_data = Ok item ->
      exists quantity q,
        py_getitem item_data "quantity" = Ok quantity
        /\ py_int rt quantity = Ok q
        /\ Item.qty item = PyInt q)
  /\ py_int rt (PNum (PyFloat 2.5)) = Ok 2
  /\ (item <- item_of_payload rt mismatched_payload ;; Ok (Item.qty item))
     = Ok (PyInt 2)
  /\ (item <- item_of_payload rt mismatched_payload ;; Item.price_cal rt item)
     = Ok (PyFloat 25).
Proof.
  split; [| repeat split; try reflexivity; each_summation rt].
  intros item_data item H. unfold item_of_payload in H.
  bind_cases H. injection H as <-.
  eexists. eexists. split; [reflexivity |]. split; [eassumption | reflexivity].
Qed.
(** The handler adds the items in the order of the payload, so the order
    of the payload is the order of the table. *)
Lemma add_items_appends (payload : list pyval) (built : list Item.t)
    (invoice : Invoice.t) :
  mapM (item_of_payload rt) payload = Ok built ->
  exists invoice',
    add_items rt invoice payload = Ok invoice'
    /\ Invoice.items invoice' = Invoice.items invoice ++ built.
Proof.
  revert built invoice.
  induction payload as [| item_data rest IH]; intros built invoice H; simpl in *.
  - injection H as <-. exists invoice. now rewrite app_nil_r.
  - destruct (item_of_payload rt item_data) as [item | e]; simpl in *;
      [| discriminate].
    destruct (mapM (item_of_payload rt) rest) as [its | e]; simpl in *;
      [| discriminate].
    injection H as <-.
    match goal with
    | |- exists _, add_items _ ?i _ = _ /\ _ =>
        destruct (IH its i eq_refl) as [invoice' [H1 H2]]
    end.
    exists invoice'. split; [exact H1 |].
    rewrite H2. simpl. now rewrite <- app_assoc.
Qed.
End AppFacts.

Lemma item_of_payload_pads_witness :
  item_of_payload numeric_only_runtime mismatched_payload
  = Ok {| Item.name := PStr "crate"; Item.qty := PyInt 2;
          Item.price := PyFloat 10;
          Item.charge_types :=
            Some [PStr "shipping"; PStr "packing"; PStr "duty"];
          Item.charge_amounts := Some [PyFloat 5; PyFloat 0; PyFloat 0] |}.
Proof.
  apply (item_of_payload_pads numeric_only_runtime mismatched_payload
           [PStr "shipping"; PStr "packing"; PStr "duty"] [PNum (PyInt 5)]
           (PStr "crate") (PNum (PyFloat 2.5)) (PNum (PyInt 10)) 2 10%float
           [5%float]); reflexivity.
Defined.

Lemma item_of_payload_qty_witness :
  exists item,
    item_of_payload numeric_only_runtime mismatched_payload = Ok item
    /\ Item.qty item = PyInt 2.
Proof.
  eexists. split; [reflexivity |].
  destruct (proj1 (item_of_payload_qty numeric_only_runtime)
              mismatched_payload _ eq_refl) as [quantity [q [H1 [H2 H3]]]].
  rewrite H3. simpl in H1. injection H1 as <-. simpl in H2.
  injection H2 as <-. reflexivity.
Defined.

(** ** Currency formatting *)

Lemma digit_char_facts (d : Z) :
  0 <= d <= 9 ->
  is_digit (digit_char d) = true
  /\ digit_value (digit_char d) = d
  /\ Ascii.eqb (digit_char d) "," = false.
Proof.
  intros H.
  assert (E : d = 0 \/ d = 1 \/ d = 2 \/ d = 3 \/ d = 4 \/ d = 5 \/ d = 6
              \/ d = 7 \/ d = 8 \/ d = 9) by lia.
  repeat (destruct E as [-> | E]; [repeat split; reflexivity |]).
  subst d. repeat split; reflexivity.
Qed.

Lemma read_digits_app (s t : string) (acc : Z) :
  read_digits acc (s ++ t) = read_digits (read_digits acc s) t.
Proof.
  revert acc. induction s as [| c s IH]; intros acc; simpl; [reflexivity |].
  destruct (Ascii.eqb c ","); apply IH.
Qed.

Lemma read_digits_comma (s : string) (acc : Z) :
  read_digits acc ("," ++ s) = read_digits acc s.
Proof. reflexivity. Qed.

Lemma read_digit_char (d acc : Z) (s : string) :
  0 <= d <= 9 ->
  read_digits acc (String (digit_char d) s) = read_digits (10 * acc + d) s.
Proof.
  intros H. destruct (digit_char_facts d H) as [_ [Hv Hc]].
  cbn [read_digits]. now rewrite Hc, Hv.
Qed.

Lemma tens_range (n : Z) : 0 <= n < 100 -> 0 <= n / 10 <= 9 /\ 0 <= n mod 10 <= 9.
Proof.
  intros H. pose proof (Z.mod_pos_bound n 10 ltac:(lia)).
  assert (0 <= n / 10) by (apply Z.div_pos; lia).
  assert (n / 10 < 10) by (apply Z.div_lt_upper_bound; lia). lia.
Qed.

Lemma hundreds_range (n : Z) :
  0 <= n < 1000 -> 0 <= n / 100 <= 9 /\ 0 <= n mod 100 < 100.
Proof.
  intros H. pose proof (Z.mod_pos_bound n 100 ltac:(lia)).
  assert (0 <= n / 100) by (apply Z.div_pos; lia).
  assert (n / 100 < 10) by (apply Z.div_lt_upper_bound; lia). lia.
Qed.

Lemma two_digits_shape (n : Z) :
  0 <= n < 100 ->
  String.length (two_digits n) = 2%nat /\ all_digits (two_digits n) = true.
Proof.
  intros H. destruct (tens_range n H) as [H1 H2].
  split; [reflexivity |]. unfold two_digits. cbn [all_digits].
  destruct (digit_char_facts _ H1) as [-> _].
  destruct (digit_char_facts _ H2) as [-> _]. reflexivity.
Qed.

Lemma two_digits_value (n acc : Z) :
  0 <= n < 100 -> read_digits acc (two_digits n) = 100 * acc + n.
Proof.
  intros H. destruct (tens_range n H) as [H1 H2]. unfold two_digits.
  rewrite !read_digit_char by assumption. cbn [read_digits].
  pose proof (Z.div_mod n 10 ltac:(lia)). lia.
Qed.

Lemma three_digits_shape (n : Z) :
  0 <= n < 1000 ->
  String.length (three_digits n) = 3%nat /\ all_digits (three_digits n) = true.
Proof.
  intros H. destruct (hundreds_range n H) as [H1 H2].
  destruct (two_digits_shape _ H2) as [Hl Hd].
  unfold three_digits. cbn [all_digits String.length]. rewrite Hl, Hd.
  destruct (digit_char_facts _ H1) as [-> _]. split; reflexivity.
Qed.

Lemma three_digits_value (n acc : Z) :
  0 <= n < 1000 -> read_digits acc (three_digits n) = 1000 * acc + n.
Proof.
  intros H. destruct (hundreds_range n H) as [H1 H2]. unfold three_digits.
  rewrite read_digit_char by assumption. rewrite two_digits_value by assumption.
  pose proof (Z.div_mod n 100 ltac:(lia)). lia.
Qed.

Lemma leading_group_shape (n : Z) :
  0 <= n < 1000 ->
  (1 <= String.length (leading_group n) <= 3)%nat
  /\ all_digits (leading_group n) = true
  /\ read_digits 0 (leading_group n) = n.
Proof.
  intros H. unfold leading_group.
  destruct (n <? 10) eqn:E1; [| destruct (n <? 100) eqn:E2].
  - apply Z.ltb_lt in E1. assert (H' : 0 <= n <= 9) by lia.
    rewrite read_digit_char by exact H'. cbn [String.length all_digits read_digits].
    destruct (digit_char_facts _ H') as [-> _].
    split; [lia |]. split; [reflexivity | lia].
  - apply Z.ltb_lt in E2. assert (H' : 0 <= n < 100) by lia.
    destruct (two_digits_shape _ H') as [-> ->].
    rewrite two_digits_value by exact H'. split; [lia |]. split; [reflexivity | lia].
  - destruct (three_digits_shape _ H) as [-> ->].
    rewrite three_digits_value by exact H. split; [lia |]. split; [reflexivity | lia].
Qed.

(** The integer part is written in well-formed groups, and reading the
    digits back gives the number. *)
Lemma group_thousands_spec (n : Z) :
  0 <= n -> grouped (group_thousands n) /\ read_digits 0 (group_thousands n) = n.
Proof.
  funelim (group_thousands n); intros Hn.
  - destruct (leading_group_shape n ltac:(lia)) as [H1 [H2 H3]].
    split; [now apply grouped_first | exact H3].
  - assert (Hq : 0 <= n / 1000) by (apply Z.div_pos; lia).
    pose proof (Z.mod_pos_bound n 1000 ltac:(lia)) as Hr.
    destruct (H Hq) as [Hg Hv].
    destruct (three_digits_shape _ Hr) as [Hl Hd].
    split; [now apply grouped_next |].
    rewrite read_digits_app, Hv, read_digits_comma.
    rewrite three_digits_value by exact Hr.
    pose proof (Z.div_mod n 1000 ltac:(lia)). lia.
Qed.

(** [div_half_even] rounds to a nearest integer. *)
Lemma div_half_even_nearest (n d : Z) :
  0 <= n -> 0 < d ->
  0 <= div_half_even n d /\ 2 * Z.abs (div_half_even n d * d - n) <= d.
Proof.
  intros Hn Hd. unfold div_half_even.
  pose proof (Z.div_mod n d ltac:(lia)) as Hdm.
  pose proof (Z.mod_pos_bound n d Hd) as Hr.
  assert (Hq : 0 <= n / d) by (apply Z.div_pos; lia).
  destruct (2 * (n mod d) <? d) eqn:E1; [| destruct (d <? 2 * (n mod d)) eqn:E2;
    [| destruct (Z.even (n / d))]].
  - apply Z.ltb_lt in E1. split; [lia | nia].
  - apply Z.ltb_lt in E2. split; [lia | nia].
  - apply Z.ltb_ge in E1, E2. split; [lia | nia].
  - apply Z.ltb_ge in E1, E2. split; [lia | nia].
Qed.

(** A tie goes to the even neighbour. *)
Lemma div_half_even_tie (n d : Z) :
  0 <= n -> 0 < d ->
  2 * Z.abs (div_half_even n d * d - n) = d ->
  Z.even (div_half_even n d) = true.
Proof.
  intros Hn Hd. unfold div_half_even.
  pose proof (Z.div_mod n d ltac:(lia)) as Hdm.
  pose proof (Z.mod_pos_bound n d Hd) as Hr.
  assert (Hq : 0 <= n / d) by (apply Z.div_pos; lia).
  destruct (2 * (n mod d) <? d) eqn:E1; [| destruct (d <? 2 * (n mod d)) eqn:E2;
    [| destruct (Z.even (n / d)) eqn:E3]].
  - apply Z.ltb_lt in E1. intros H. nia.
  - apply Z.ltb_lt in E2. intros H. nia.
  - intros _. exact E3.
  - intros _. rewrite Z.add_1_r, Z.even_succ, <- Z.negb_even, E3. reflexivity.
Qed.

Lemma hundredths_nonneg (m : positive) (e : Z) : 0 <= hundredths m e.
Proof.
  unfold hundredths. destruct (0 <=? e) eqn:E.
  - apply Z.leb_le in E. pose proof (Z.pow_pos_nonneg 2 e ltac:(lia) E). nia.
  - apply Z.leb_gt in E.
    apply div_half_even_nearest; [lia |]. apply Z.pow_pos_nonneg; lia.
Qed.

Lemma hundredths_nearest (m : positive) (e : Z) :
  (0 <= e -> hundredths m e = Zpos m * 2 ^ e * 100)
  /\ (e < 0 ->
      2 * Z.abs (hundredths m e * 2 ^ (- e) - Zpos m * 100) <= 2 ^ (- e)).
Proof.
  unfold hundredths. split; intros H.
  - apply Z.leb_le in H. now rewrite H.
  - apply Z.leb_gt in H. rewrite H.
    apply div_half_even_nearest; [lia |]. apply Z.pow_pos_nonneg; lia.
Qed.

Lemma hundredths_tie (m : positive) (e : Z) :
  e < 0 ->
  2 * Z.abs (hundredths m e * 2 ^ (- e) - Zpos m * 100) = 2 ^ (- e) ->
  Z.even (hundredths m e) = true.
Proof.
  unfold hundredths. intros H. apply Z.leb_gt in H as H'. rewrite H'.
  apply div_half_even_tie; [lia |]. apply Z.pow_pos_nonneg; lia.
Qed.

(** A finite amount is printed with its integer part in groups of three
    and exactly two decimals, and the digits are those of the amount
    rounded to hundredths. *)
Lemma finite_cases (f : float) :
  is_finite f = true ->
  (exists s, Prim2SF f = S754_zero s)
  \/ (exists s m e, Prim2SF f = S754_finite s m e).
Proof.
  unfold is_finite. intros H. apply negb_true_iff, orb_false_iff in H.
  destruct H as [Hnan Hinf]. unfold Prim2SF. rewrite Hnan, Hinf.
  destruct (is_zero f); [left; eauto |].
  destruct (Z.frexp f) as [r ex].
  destruct (shr_fexp _ _ _ _ _) as [shr e'].
  destruct (shr_m shr); [left | right | left]; eauto.
Qed.

Lemma format_f2_finite (f : float) :
  is_finite f = true ->
  two_decimals (format_f2 f).
Proof.
  intros H. unfold format_f2.
  destruct (finite_cases f H) as [[s ->] | [s [m [e ->]]]].
  - exists (sign_str s), "0", "00". split; [reflexivity |].
    split; [destruct s; simpl; auto |].
    split; [apply grouped_first; [simpl; lia | reflexivity] |].
    split; reflexivity.
  - pose proof (hundredths_nonneg m e) as Hc.
    set (c := hundredths m e) in *.
    assert (Hq : 0 <= c / 100) by (apply Z.div_pos; lia).
    pose proof (Z.mod_pos_bound c 100 ltac:(lia)) as Hr.
    exists (sign_str s), (group_thousands (c / 100)), (two_digits (c mod 100)).
    split; [reflexivity |].
    split; [destruct s; simpl; auto |].
    split; [apply group_thousands_spec, Hq |].
    apply two_digits_shape, Hr.
Qed.

Lemma format_f2_digits (f : float) (s : bool) (m : positive) (e : Z) :
  Prim2SF f = S754_finite s m e ->
  exists body cents,
    format_f2 f = (sign_str s ++ body ++ "." ++ cents)%string
    /\ 100 * read_digits 0 body + read_digits 0 cents = hundredths m e.
Proof.
  intros H. unfold format_f2. rewrite H.
  pose proof (hundredths_nonneg m e) as Hc.
  set (c := hundredths m e) in *.
  assert (Hq : 0 <= c / 100) by (apply Z.div_pos; lia).
  pose proof (Z.mod_pos_bound c 100 ltac:(lia)) as Hr.
  exists (group_thousands (c / 100)), (two_digits (c mod 100)).
  split; [reflexivity |].
  destruct (group_thousands_spec _ Hq) as [_ ->].
  rewrite two_digits_value by exact Hr.
  pose proof (Z.div_mod c 100 ltac:(lia)). lia.
Qed.

(** The format specification on some amounts: ties go to the even
    hundredth of the exact binary value, a carry opens a new group, the sign
    of a negative amount is kept even when it rounds to zero. *)
Lemma format_f2_examples :
  map format_f2 [1234.5; 0.125; 0.375; 2.675; 999.995; -0.001; 1234567.891;
                 -1234.5; 1e22]%float
  = [ "1,234.50"; "0.12"; "0.38"; "2.67"; "1,000.00"; "-0.00"; "1,234,567.89";
      "-1,234.50"; "10,000,000,000,000,000,000,000.00" ].
Proof. reflexivity. Qed.

(** Every currency code other than ['INR'] selects the dollar sign. *)
Lemma format_currency_dollar (currency : pyval) (f : float) :
  currency <> PStr "INR" ->
  is_finite f = true ->
  format_currency currency (PyFloat f) = Ok ("$" ++ format_f2 f)%string
  /\ two_decimals (format_f2 f).
Proof.
  intros Hc Hf. split; [| now apply format_f2_finite].
  unfold format_currency. simpl. now rewrite (is_str_false _ _ Hc).
Qed.

(** An amount that is not finite is printed without decimals. *)
Lemma format_currency_infinity :
  format_currency (PStr "USD") (PyFloat infinity) = Ok "$inf".
Proof. reflexivity. Qed.

(** C1 at 1234.5 under ['INR']: the prefix is the glyph literal of the
    source, the seven bytes [C3 A2 E2 80 9A C2 B9] (the characters U+00E2,
    U+201A, U+00B9), not the rupee sign U+20B9; under an unrecognized code
    the result is ["$1,234.50"]. *)
Theorem format_currency_inr :
  format_currency (PStr "INR") (PyFloat 1234.5)
  = Ok (inr_glyph ++ "1,234.50")%string
  /\ map nat_of_ascii (list_ascii_of_string inr_glyph)
     = [195; 162; 226; 128; 154; 194; 185]%nat
  /\ map nat_of_ascii (list_ascii_of_string rupee_sign) = [226; 130; 185]%nat
  /\ format_currency (PStr "INR") (PyFloat 1234.5)
     <> Ok (rupee_sign ++ "1,234.50")%string
  /\ format_currency (PStr "XYZ") (PyFloat 1234.5) = Ok "$1,234.50".
Proof.
  repeat split; try reflexivity.
  intros H. discriminate H.
Qed.

(** ** The request handler: what an invoice built from a payload looks like *)

Section HandlerFacts.
Variable rt : runtime.

Lemma add_items_inv (payload : list pyval) (invoice invoice' : Invoice.t) :
  add_items rt invoice payload = Ok invoice' ->
  exists built,
    mapM (item_of_payload rt) payload = Ok built
    /\ Invoice.items invoice' = Invoice.items invoice ++ built
    /\ Invoice.client invoice' = Invoice.client invoice
    /\ Invoice.invoice_date invoice' = Invoice.invoice_date invoice
    /\ Invoice.invoice_number invoice' = Invoice.invoice_number invoice
    /\ Invoice.tax_rate invoice' = Invoice.tax_rate invoice
    /\ Invoice.discount invoice' = Invoice.discount invoice
    /\ Invoice.discount_type invoice' = Invoice.discount_type invoice.
Proof.
  revert invoice.
  induction payload as [| item_data rest IH]; intros invoice H; simpl in *.
  - injection H as <-. exists []. rewrite app_nil_r. repeat split.
  - destruct (item_of_payload rt item_data) as [item | e]; simpl in *;
      [| discriminate].
    apply IH in H. destruct H as [built [H1 [H2 H3]]].
    exists (item :: built). rewrite H1. simpl in *.
    split; [reflexivity |]. split; [| exact H3].
    rewrite H2. now rewrite <- app_assoc.
Qed.

(** Everything [create_invoice] puts into the invoice, read back from
    the payload. *)
Lemma create_invoice_inv (data : pyval) (now ident : Z)
    (invoice : Invoice.t) (currency : pyval) :
  create_invoice rt data now ident = Ok (invoice, currency) ->
  exists d payload built,
    data = PDict d
    /\ (its <- py_getitem data "items" ;; py_iter its) = Ok payload
    /\ mapM (item_of_payload rt) payload = Ok built
    /\ Invoice.items invoice = built
    /\ Invoice.invoice_date invoice = now
    /\ Invoice.invoice_number invoice
       = ("INV-" ++ NilZero.string_of_int (Z.to_int ident))%string
    /\ match assoc "tax_rate" d with
       | None => Invoice.tax_rate invoice = PNum (PyFloat 0)
       | Some v => exists f, py_float rt v = Ok f
                             /\ Invoice.tax_rate invoice = PNum (PyFloat f)
       end
    /\ match assoc "discount" d with
       | None => Invoice.discount invoice = PNum (PyFloat 0)
                 /\ Invoice.discount_type invoice = PStr "flat"
       | Some v =>
           exists f, py_float rt v = Ok f
                     /\ Invoice.discount invoice = PNum (PyFloat f)
                     /\ Invoice.discount_type invoice
                        = match assoc "discount_type" d with
                          | Some t => t
                          | None => PStr "flat"
                          end
       end
    /\ currency = match assoc "currency" d with
                  | Some c => c
                  | None => PStr "USD"
                  end.
Proof.
  intros H. unfold create_invoice in H.
  destruct data as [| | | | | d]; try discriminate H.
  exists d. bind_cases H. injection H as <- <-.
  match goal with
  | Hadd : add_items _ _ ?p = Ok ?i |- _ =>
      apply add_items_inv in Hadd;
      destruct Hadd as [built [Hb [Hi [_ [Hd [Hn [Ht [Hdi Hdt]]]]]]]];
      exists p, built
  end.
  simpl in Hi, Hd, Hn, Ht, Hdi, Hdt.
  match goal with
  | Hit : match assoc "items" d with _ => _ end = Ok _,
    Hiter : py_iter _ = Ok _ |- _ =>
      split; [reflexivity |];
      split; [unfold py_getitem; rewrite Hit; exact Hiter |]
  end.
  split; [exact Hb |].
  match goal with
  | Htax : (if dict_has d "tax_rate" then _ else _) = Ok ?i1,
    Hdis : (if dict_has d "discount" then _ else _) = Ok ?i2 |- _ =>
      unfold dict_has in Htax, Hdis;
      destruct (assoc "tax_rate" d) as [tv |];
      destruct (assoc "discount" d) as [dv |];
      simpl in Htax, Hdis; bind_cases Htax; bind_cases Hdis;
      injection Htax as <-; injection Hdis as <-; simpl;
      rewrite ?Hi, ?Hd, ?Hn, ?Ht, ?Hdi, ?Hdt;
      repeat split; eauto
  end.
Qed.
End HandlerFacts.

Section HandlerProperties.
Variable rt : runtime.

Lemma item_of_payload_handler_item (item_data : pyval) (item : Item.t) :
  item_of_payload rt item_data = Ok item ->
  exists nm q p types cs,
    item = handler_item nm q p (Some types) cs
    /\ List.length types = List.length cs.
Proof.
  intros H. unfold item_of_payload in H. bind_cases H. injection H as <-.
  match goal with
  | Hm : mapM (py_float rt) _ = Ok ?fs |- _ =>
      apply mapM_length in Hm; rewrite List.length_app, repeat_length in Hm;
      eexists; eexists; eexists; eexists; exists fs;
      split; [reflexivity |];
      rewrite List.length_app, repeat_length; lia
  end.
Qed.

(** X1. Every item the handler builds has an [int] quantity, a float price,
    float charges, and as many charge labels as charge amounts; so its
    line total is a float, [float(q) * p] plus what the builtin [sum] makes
    of the charges, or an [OverflowError] exactly when the quantity does
    not fit a float, and never a type error. *)
Theorem item_of_payload_shape (item_data : pyval) (item : Item.t) :
  item_of_payload rt item_data = Ok item ->
  exists nm q p types cs,
    item = handler_item nm q p (Some types) cs
    /\ List.length types = List.length cs
    /\ Item.price_cal rt item
       = (q' <- int_to_float q ;;
          Ok (PyFloat (q' * p + float_total rt cs)%float))
    /\ (if qty_fits item
        then exists x, Item.price_cal rt item = Ok (PyFloat x)
        else Item.price_cal rt item = Raise OverflowError).
Proof.
  intros H. apply item_of_payload_handler_item in H.
  destruct H as [nm [q [p [types [cs [-> Hl]]]]]].
  exists nm, q, p, types, cs. split; [reflexivity |]. split; [exact Hl |].
  rewrite price_cal_handler_item. split; [reflexivity |].
  unfold qty_fits, int_to_float. simpl.
  destruct (is_infinity (float_of_Z q)); simpl; eauto.
Qed.

(** X2. How building an item fails: a payload item that is not an object has
    no [get] method; charge fields that are not lists cannot be padded; a
    missing [name], [quantity] or [price] is a [KeyError], looked up in that
    order after the padding; a quantity or price that cannot be converted
    passes its error on. *)
Theorem item_of_payload_errors :
  (forall v, (forall d, v <> PDict d) ->
             item_of_payload rt v = Raise AttributeError)
  /\ (forall d ct, assoc "charge_types" d = Some ct ->
                   (forall l, ct <> PList l) ->
                   item_of_payload rt (PDict d) = Raise TypeError)
  /\ (forall d ct ca, py_get (PDict d) "charge_types" (PList []) = Ok (PList ct) ->
                      assoc "charge_amounts" d = Some ca ->
                      (forall l, ca <> PList l) ->
                      item_of_payload rt (PDict d) = Raise TypeError)
  /\ (forall d ct ca,
         py_get (PDict d) "charge_types" (PList []) = Ok (PList ct) ->
         py_get (PDict d) "charge_amounts" (PList []) = Ok (PList ca) ->
         (assoc "name" d = None -> item_of_payload rt (PDict d) = Raise KeyError)
         /\ (forall nm, assoc "name" d = Some nm ->
               (assoc "quantity" d = None ->
                item_of_payload rt (PDict d) = Raise KeyError)
               /\ (forall qv, assoc "quantity" d = Some qv ->
                     (forall e, py_int rt qv = Raise e ->
                                item_of_payload rt (PDict d) = Raise e)
                     /\ (forall q, py_int rt qv = Ok q ->
                           (assoc "price" d = None ->
                            item_of_payload rt (PDict d) = Raise KeyError)
                           /\ (forall pv e, assoc "price" d = Some pv ->
                                 py_float rt pv = Raise e ->
                                 item_of_payload rt (PDict d) = Raise e))))).
Proof.
  split; [| split; [| split]].
  - intros v Hv. destruct v as [| | | | | d]; try reflexivity.
    now destruct (Hv d).
  - intros d ct Hct Hl. unfold item_of_payload. simpl. rewrite Hct.
    destruct ct as [| | | | l |]; try reflexivity. now destruct (Hl l).
  - intros d ct ca Hct Hca Hl. unfold item_of_payload. rewrite Hct.
    simpl. rewrite Hca.
    destruct ca as [| | | | l |]; try reflexivity. now destruct (Hl l).
  - intros d ct ca Hct Hca. unfold item_of_payload. rewrite Hct, Hca.
    cbn [bind as_list py_getitem]. split.
    + intros ->. reflexivity.
    + intros nm ->. cbn [bind]. split.
      * intros ->. reflexivity.
      * intros qv ->. cbn [bind]. split.
        -- intros e ->. reflexivity.
        -- intros q ->. cbn [bind]. split.
           ++ intros ->. reflexivity.
           ++ intros pv e Hp He. rewrite Hp. cbn [bind]. rewrite He.
              reflexivity.
Qed.

(** X3. An item without charge fields gets two empty lists, so its
    description is the dash and its line total is
    [float(quantity) * price + 0.0]. *)
Theorem item_of_payload_no_charges
    (d : list (string * pyval)) (nm qv pv : pyval) (q : Z) (p : float) :
  assoc "charge_types" d = None ->
  assoc "charge_amounts" d = None ->
  assoc "name" d = Some nm ->
  assoc "quantity" d = Some qv -> py_int rt qv = Ok q ->
  assoc "price" d = Some pv -> py_float rt pv = Ok p ->
  item_of_payload rt (PDict d) = Ok (handler_item nm q p (Some []) [])
  /\ Item.price_cal rt (handler_item nm q p (Some []) [])
     = (q' <- int_to_float q ;; Ok (PyFloat (q' * p + 0)%float))
  /\ (forall currency r,
         item_row rt currency (handler_item nm q p (Some []) []) = Ok r ->
         nth_error r 1 = Some (Paragraph (PStr "-") "tabval")).
Proof.
  intros Hct Hca Hn Hq Hq' Hp Hp'. split; [| split].
  - unfold item_of_payload. simpl. rewrite Hct, Hca. simpl.
    rewrite Hn. simpl. rewrite Hq. simpl. rewrite Hq'. simpl.
    rewrite Hp. simpl. rewrite Hp'. reflexivity.
  - rewrite price_cal_handler_item, float_total_nil. reflexivity.
  - intros currency r H. apply item_row_inv in H.
    destruct H as [desc [p' [q' [line [t [Hd [_ [_ [_ [_ [_ ->]]]]]]]]]]].
    simpl in Hd. injection Hd as <-. reflexivity.
Qed.

(** X4. The invoice holds one item per element of the payload's [items], in
    the payload's order. *)
Theorem create_invoice_items (data : pyval) (now ident : Z)
    (invoice : Invoice.t) (currency : pyval) :
  create_invoice rt data now ident = Ok (invoice, currency) ->
  exists payload,
    (its <- py_getitem data "items" ;; py_iter its) = Ok payload
    /\ mapM (item_of_payload rt) payload = Ok (Invoice.items invoice)
    /\ List.length (Invoice.items invoice) = List.length payload
    /\ (forall i item_data, nth_error payload i = Some item_data ->
          exists item, item_of_payload rt item_data = Ok item
                       /\ nth_error (Invoice.items invoice) i = Some item).
Proof.
  intros H. apply create_invoice_inv in H.
  destruct H as [d [payload [built [_ [Hp [Hb [Hi _]]]]]]]. subst built.
  exists payload. split; [exact Hp |]. split; [exact Hb |].
  split; [exact (mapM_length _ _ _ Hb) |].
  intros i item_data Hn. exact (mapM_nth_error _ _ _ Hb i item_data Hn).
Qed.

(** X5. Tax and discount of a built invoice: without the key the default
    stays (0.0, and ['flat']); with the key the value stored is
    [float(...)] of the payload's value.  The discount type is read only
    together with a discount: without a [discount] key a [discount_type] in
    the payload is ignored.  The currency defaults to ['USD']. *)
Theorem create_invoice_settings (d : list (string * pyval)) (now ident : Z)
    (invoice : Invoice.t) (currency : pyval) :
  create_invoice rt (PDict d) now ident = Ok (invoice, currency) ->
  (assoc "tax_rate" d = None -> Invoice.tax_rate invoice = PNum (PyFloat 0))
  /\ (forall v, assoc "tax_rate" d = Some v ->
        exists f, py_float rt v = Ok f
                  /\ Invoice.tax_rate invoice = PNum (PyFloat f))
  /\ (assoc "discount" d = None ->
        Invoice.discount invoice = PNum (PyFloat 0)
        /\ Invoice.discount_type invoice = PStr "flat")
  /\ (forall v, assoc "discount" d = Some v ->
        exists f, py_float rt v = Ok f
                  /\ Invoice.discount invoice = PNum (PyFloat f)
                  /\ (assoc "discount_type" d = None ->
                      Invoice.discount_type invoice = PStr "flat")
                  /\ (forall t, assoc "discount_type" d = Some t ->
                                Invoice.discount_type invoice = t))
  /\ (assoc "currency" d = None -> currency = PStr "USD")
  /\ (forall c, assoc "currency" d = Some c -> currency = c).
Proof.
  intros H. apply create_invoice_inv in H.
  destruct H as [d' [payload [built [Hd [_ [_ [_ [_ [_ [Ht [Hdis Hc]]]]]]]]]]].
  injection Hd as <-.
  split; [intros E; now rewrite E in Ht |].
  split; [intros v E; now rewrite E in Ht |].
  split; [intros E; now rewrite E in Hdis |].
  split.
  - intros v E. rewrite E in Hdis. destruct Hdis as [f [H1 [H2 H3]]].
    exists f. split; [exact H1 |]. split; [exact H2 |].
    split; [intros E'; now rewrite E' in H3 | intros t E'; now rewrite E' in H3].
  - split; [intros E; now rewrite E in Hc | intros c E; now rewrite E in Hc].
Qed.

(** X6. How building the invoice fails before any item is read: a payload
    that is not an object cannot be subscripted, and a missing [client] or
    [items] key is a [KeyError]. *)
Theorem create_invoice_errors (now ident : Z) :
  (forall data, (forall d, data <> PDict d) ->
                create_invoice rt data now ident = Raise TypeError)
  /\ (forall d, assoc "client" d = None ->
                create_invoice rt (PDict d) now ident = Raise KeyError)
  /\ (forall d c, assoc "client" d = Some c -> (forall x, c <> PDict x) ->
                  create_invoice rt (PDict d) now ident = Raise TypeError)
  /\ (forall d c nm em ad,
         assoc "client" d = Some (PDict c) ->
         assoc "name" c = Some nm -> assoc "email" c = Some em ->
         assoc "address" c = Some ad ->
         (assoc "items" d = None ->
          create_invoice rt (PDict d) now ident = Raise KeyError)
         /\ (forall its, assoc "items" d = Some its ->
               py_iter its = Raise TypeError ->
               create_invoice rt (PDict d) now ident = Raise TypeError)).
Proof.
  split; [| split; [| split]].
  - intros data Hd. destruct data as [| | | | | d]; try reflexivity.
    now destruct (Hd d).
  - intros d E. unfold create_invoice. simpl. now rewrite E.
  - intros d c E Hc. unfold create_invoice. simpl. rewrite E. simpl.
    destruct c as [| | | | | x]; try reflexivity. now destruct (Hc x).
  - intros d c nm em ad E En Ee Ea. unfold create_invoice.
    cbn [bind py_getitem py_get]. rewrite E. cbn [bind py_getitem py_get].
    rewrite En, Ee, Ea. cbn [bind py_getitem py_get].
    split.
    + intros ->. reflexivity.
    + intros its Hi Hit. rewrite Hi. cbn [bind]. rewrite Hit. reflexivity.
Qed.
End HandlerProperties.

(** ** Totals of invoices built by the handler *)

Lemma sum_loop_handler_items (rt : runtime) (items : list Item.t)
    (st : sum_state) :
  (st = SumObject (PyInt 0) \/ st = SumInt 0
   \/ (exists f, st = SumObject (PyFloat f))
   \/ (exists f c, st = SumFloat f c)) ->
  Forall (fun item => exists nm q p types cs,
                        item = handler_item nm q p types cs) items ->
  if forallb qty_fits items
  then exists s, sum_loop rt st (map (Item.price_cal rt) items) = Ok s
                 /\ (s = PyInt 0 \/ exists f, s = PyFloat f)
  else sum_loop rt st (map (Item.price_cal rt) items) = Raise OverflowError.
Proof.
  intros Hst Hall. revert st Hst.
  induction Hall as [| item rest [nm [q [p [types [cs ->]]]]] _ IH];
    intros st Hst; cbn [map forallb sum_loop].
  - exists (sum_finish st). split; [reflexivity |].
    destruct Hst as [-> | [-> | [[f ->] | [f [c ->]]]]]; simpl; eauto.
  - rewrite price_cal_handler_item. unfold qty_fits, int_to_float.
    cbn [Item.qty handler_item].
    destruct (is_infinity (float_of_Z q)); cbn [bind negb andb];
      [reflexivity |].
    destruct Hst as [-> | [-> | [[f ->] | [f [c ->]]]]]; simpl; apply IH;
      eauto 6.
Qed.

Lemma subtotal_handler_items (rt : runtime) (items : list Item.t) :
  Forall (fun item => exists nm q p types cs,
                        item = handler_item nm q p types cs) items ->
  if forallb qty_fits items
  then exists s, calculate_subtotal rt items = Ok s
                 /\ (s = PyInt 0 \/ exists f, s = PyFloat f)
  else calculate_subtotal rt items = Raise OverflowError.
Proof.
  intros Hall. unfold calculate_subtotal, sum_iter.
  apply sum_loop_handler_items; [| exact Hall].
  unfold sum_start. destruct (builtin_sum rt); auto.
Qed.

Lemma apply_discount_float (s : num) (d : float) (t : pyval) :
  (s = PyInt 0 \/ exists f, s = PyFloat f) ->
  exists x, apply_discount s (PyFloat d) t = Ok (PyFloat x).
Proof.
  intros [-> | [f ->]]; unfold apply_discount; destruct (is_str t "percentage");
    simpl; eauto.
Qed.

Section CreatedInvoices.
Variable rt : runtime.

(** X7. The totals of an invoice built by the handler are computed without a
    type error: they fail only, with [OverflowError], when some quantity is
    an integer too large for a float; otherwise the discounted amount and
    the total are floats, and the subtotal is a float or, with no items, the
    integer 0. *)
Theorem created_invoice_totals (data : pyval) (now ident : Z)
    (invoice : Invoice.t) (currency : pyval) :
  create_invoice rt data now ident = Ok (invoice, currency) ->
  if forallb qty_fits (Invoice.items invoice)
  then exists s d t,
         totals rt invoice = Ok (s, PyFloat d, PyFloat t)
         /\ (s = PyInt 0 \/ exists f, s = PyFloat f)
  else totals rt invoice = Raise OverflowError.
Proof.
  intros H. apply create_invoice_inv in H.
  destruct H as [d [payload [built [_ [_ [Hb [Hi [_ [_ [Ht [Hd _]]]]]]]]]]].
  subst built.
  assert (Hall : Forall (fun item => exists nm q p types cs,
                           item = handler_item nm q p types cs)
                        (Invoice.items invoice)).
  { apply Forall_forall. intros item Hin.
    apply In_nth_error in Hin. destruct Hin as [i Hin].
    assert (Hlen : (i < List.length payload)%nat).
    { rewrite <- (mapM_length _ _ _ Hb). apply nth_error_Some. now rewrite Hin. }
    apply nth_error_Some in Hlen.
    destruct (nth_error payload i) as [item_data |] eqn:Ep; [| contradiction].
    destruct (mapM_nth_error _ _ _ Hb i item_data Ep) as [item' [Hi' Hn']].
    rewrite Hin in Hn'. injection Hn' as <-.
    destruct (item_of_payload_handler_item rt _ _ Hi') as [nm [q [p [ty [cs [E _]]]]]].
    eauto 8. }
  pose proof (subtotal_handler_items rt _ Hall) as Hs.
  unfold totals.
  destruct (forallb qty_fits (Invoice.items invoice)).
  - destruct Hs as [s [-> Hs]]. cbn [bind].
    assert (Hdf : exists df, Invoice.discount invoice = PNum (PyFloat df)).
    { destruct (assoc "discount" d); [destruct Hd as [f [_ [E _]]] | destruct Hd as [E _]];
        eauto. }
    assert (Htf : exists tf, Invoice.tax_rate invoice = PNum (PyFloat tf)).
    { destruct (assoc "tax_rate" d); [destruct Ht as [f [_ E]] |]; eauto. }
    destruct Hdf as [df ->]. destruct Htf as [tf ->]. cbn [bind as_num].
    destruct (apply_discount_float s df (Invoice.discount_type invoice) Hs)
      as [x ->].
    cbn [bind]. exists s, x. eexists. split; [reflexivity | exact Hs].
  - now rewrite Hs.
Qed.
End CreatedInvoices.

(** ** Floats: classes, truncation, and what is printed *)

Lemma SFeqb_finite_refl (s : bool) (m : positive) (e : Z) :
  SFeqb (S754_finite s m e) (S754_finite s m e) = true.
Proof.
  unfold SFeqb, SFcompare. rewrite Z.compare_refl.
  assert (H : Pos.compare_cont Eq m m = Eq) by apply Pos.compare_refl.
  rewrite H. now destruct s.
Qed.

(** The class of a float, read off its decoded form. *)
Lemma float_class (f : float) :
  match Prim2SF f with
  | S754_nan => is_nan f = true /\ is_infinity f = false
  | S754_infinity _ => is_nan f = false /\ is_infinity f = true
  | S754_zero _ | S754_finite _ _ _ => is_nan f = false /\ is_infinity f = false
  end.
Proof.
  unfold is_nan, is_infinity. rewrite !eqb_spec, abs_spec.
  change (Prim2SF infinity) with (S754_infinity false).
  destruct (Prim2SF f) as [s | s | | s m e]; simpl.
  - split; reflexivity.
  - destruct s; split; reflexivity.
  - split; reflexivity.
  - rewrite SFeqb_finite_refl. split; reflexivity.
Qed.

Lemma float_class_cases (f : float) :
  (is_finite f = true /\ ((exists s, Prim2SF f = S754_zero s)
                          \/ exists s m e, Prim2SF f = S754_finite s m e))
  \/ (is_nan f = true /\ is_finite f = false /\ Prim2SF f = S754_nan)
  \/ (is_infinity f = true /\ is_finite f = false
      /\ exists s, Prim2SF f = S754_infinity s).
Proof.
  pose proof (float_class f) as H. unfold is_finite.
  destruct (Prim2SF f) as [s | s | | s m e] eqn:E; destruct H as [-> ->]; simpl.
  - left. split; [reflexivity |]. left. eauto.
  - right. right. repeat split. eauto.
  - right. left. repeat split.
  - left. split; [reflexivity |]. right. eauto.
Qed.

Section IntOfFloat.
Variable rt : runtime.

(** X8. [int(x)] on a float: NaN is a [ValueError], an infinity an
    [OverflowError], every finite float is converted; the conversion
    rounds towards zero, so [int(-x) = -int(x)]: a zero gives 0, a float
    [m * 2^e] with [0 <= e] is an integer and gives that integer, and with
    [e < 0] it gives [m / 2^(-e)] rounded down in magnitude, with the sign
    of the float. *)
Theorem py_int_float (f : float) :
  (is_nan f = true -> py_int rt (PNum (PyFloat f)) = Raise ValueError)
  /\ (is_infinity f = true ->
      py_int rt (PNum (PyFloat f)) = Raise OverflowError)
  /\ (is_finite f = true -> exists z, py_int rt (PNum (PyFloat f)) = Ok z)
  /\ py_int rt (PNum (PyFloat (- f)%float))
     = match py_int rt (PNum (PyFloat f)) with
       | Ok z => Ok (- z)
       | Raise e => Raise e
       end
  /\ (forall s, Prim2SF f = S754_zero s ->
                py_int rt (PNum (PyFloat f)) = Ok 0)
  /\ (forall s m e,
         Prim2SF f = S754_finite s m e -> 0 <= e ->
         py_int rt (PNum (PyFloat f))
         = Ok (if s then - (Zpos m * 2 ^ e) else Zpos m * 2 ^ e))
  /\ (forall s m e,
         Prim2SF f = S754_finite s m e -> e < 0 ->
         exists z,
           py_int rt (PNum (PyFloat f)) = Ok z
           /\ Z.abs z * 2 ^ (- e) <= Zpos m < (Z.abs z + 1) * 2 ^ (- e)
           /\ (if s then z <= 0 else 0 <= z)).
Proof.
  cbn [py_int]. unfold float_trunc.
  split; [| split; [| split; [| split; [| split; [| split]]]]].
  - intros H. pose proof (float_class f) as Hc.
    destruct (Prim2SF f); destruct Hc; try congruence; reflexivity.
  - intros H. pose proof (float_class f) as Hc.
    destruct (Prim2SF f); destruct Hc; try congruence; reflexivity.
  - intros H. unfold is_finite in H. pose proof (float_class f) as Hc.
    destruct (Prim2SF f); destruct Hc as [Hn Hi]; rewrite Hn, Hi in H;
      simpl in H; try discriminate; eauto.
  - rewrite opp_spec. destruct (Prim2SF f) as [s | s | | s m e]; simpl;
      try reflexivity.
    destruct s; simpl; f_equal; lia.
  - intros s E. rewrite E. reflexivity.
  - intros s m e E He. rewrite E.
    apply Z.leb_le in He as He'. rewrite He'.
    rewrite Z.shiftl_mul_pow2 by exact He. reflexivity.
  - intros s m e E He. rewrite E.
    apply Z.leb_gt in He as He'. rewrite He'. eexists. split; [reflexivity |].
    rewrite Z.shiftr_div_pow2 by lia.
    assert (Hp : 0 < 2 ^ (- e)) by (apply Z.pow_pos_nonneg; lia).
    pose proof (Z.div_mod (Zpos m) (2 ^ (- e)) ltac:(lia)) as Hdm.
    pose proof (Z.mod_pos_bound (Zpos m) (2 ^ (- e)) Hp) as Hr.
    assert (Hq : 0 <= Zpos m / 2 ^ (- e)) by (apply Z.div_pos; lia).
    destruct s.
    + rewrite Z.abs_opp, Z.abs_eq by lia. split; [nia | lia].
    + rewrite Z.abs_eq by lia. split; [nia | lia].
Qed.
End IntOfFloat.

(** X9. Formatting a float amount never fails.  A finite amount is printed in
    groups of three digits with exactly two decimals, and the digits read
    back are the amount in hundredths, rounded to the nearest hundredth of
    the exact binary value and, in a tie, to the even one (0.125 is printed
    as 0.12 and 0.375 as 0.38); an amount that is not finite is printed as
    [nan], [inf] or [-inf]. *)
Theorem format_f2_cases (f : float) :
  (is_finite f = true -> two_decimals (format_f2 f))
  /\ (forall s m e,
         Prim2SF f = S754_finite s m e ->
         exists body cents,
           format_f2 f = (sign_str s ++ body ++ "." ++ cents)%string
           /\ (0 <= e ->
               100 * read_digits 0 body + read_digits 0 cents
               = Zpos m * 2 ^ e * 100)
           /\ (e < 0 ->
               2 * Z.abs ((100 * read_digits 0 body + read_digits 0 cents)
                          * 2 ^ (- e) - Zpos m * 100) <= 2 ^ (- e))
           /\ (e < 0 ->
               2 * Z.abs ((100 * read_digits 0 body + read_digits 0 cents)
                          * 2 ^ (- e) - Zpos m * 100) = 2 ^ (- e) ->
               Z.even (100 * read_digits 0 body + read_digits 0 cents) = true))
  /\ (is_finite f = false ->
      format_f2 f = "nan" \/ format_f2 f = "inf" \/ format_f2 f = "-inf")
  /\ format_f2 0.125 = "0.12" /\ format_f2 0.375 = "0.38"
  /\ format_f2 2.675 = "2.67".
Proof.
  split; [apply format_f2_finite |]. split.
  - intros s m e E. destruct (format_f2_digits f s m e E) as [body [cents [H1 H2]]].
    exists body, cents. split; [exact H1 |]. rewrite H2.
    destruct (hundredths_nearest m e) as [Hpos Hneg].
    split; [assumption |]. split; [assumption |]. apply hundredths_tie.
  - split; [| repeat split; reflexivity].
    intros H. unfold format_f2.
    destruct (float_class_cases f) as [[Hf _] | [[_ [_ ->]] | [_ [_ [s ->]]]]].
    + congruence.
    + now left.
    + right. destruct s; [right | left]; reflexivity.
Qed.

Lemma format_f2_cases_witness :
  is_finite 1234.5%float = true /\ two_decimals (format_f2 1234.5).
Proof.
  split; [reflexivity |].
  apply (proj1 (format_f2_cases 1234.5%float)). reflexivity.
Defined.

(** ** Strings *)

Lemma string_app_length (a b : string) :
  String.length (a ++ b) = (String.length a + String.length b)%nat.
Proof.
  induction a as [| x a IH]; simpl; [reflexivity | now rewrite IH].
Qed.

Lemma string_app_nil_r (a : string) : (a ++ "")%string = a.
Proof.
  induction a as [| x a IH]; simpl; [reflexivity | now rewrite IH].
Qed.

Lemma string_app_inv_tail (s a b : string) :
  (a ++ s)%string = (b ++ s)%string -> a = b.
Proof.
  revert b. induction a as [| x a IH]; intros b H; destruct b as [| y b];
    simpl in H.
  - reflexivity.
  - apply (f_equal String.length) in H. simpl in H.
    rewrite string_app_length in H. lia.
  - apply (f_equal String.length) in H. simpl in H.
    rewrite string_app_length in H. lia.
  - injection H as -> H. f_equal. now apply IH.
Qed.

(** ** Joining strings *)

Lemma join_comma_py_join (xs : list pyval) : join_comma xs = py_join ", " xs.
Proof.
  induction xs as [| x xs IH]; [reflexivity |].
  destruct x; try reflexivity. destruct xs as [| y ys]; [reflexivity |].
  change (join_comma (PStr s :: y :: ys))
    with (r <- join_comma (y :: ys) ;; Ok (s ++ ", " ++ r)%string).
  now rewrite IH.
Qed.

Lemma py_join_strings (sep : string) (l : list string) :
  py_join sep (map PStr l) = Ok (String.concat sep l).
Proof.
  induction l as [| s l IH]; [reflexivity |].
  destruct l as [| s' l']; [reflexivity |].
  change (py_join sep (map PStr (s :: s' :: l')))
    with (r <- py_join sep (map PStr (s' :: l')) ;; Ok (s ++ sep ++ r)%string).
  now rewrite IH.
Qed.

Lemma py_join_not_string (sep : string) (xs : list pyval) (x : pyval) :
  In x xs -> (forall s, x <> PStr s) -> py_join sep xs = Raise TypeError.
Proof.
  intros Hin Hx. induction xs as [| y ys IH]; [destruct Hin |].
  destruct Hin as [-> | Hin].
  - destruct x; try reflexivity. now destruct (Hx s).
  - specialize (IH Hin). destruct y; try reflexivity.
    destruct ys as [| z zs]; [destruct Hin |].
    change (py_join sep (PStr s :: z :: zs))
      with (r <- py_join sep (z :: zs) ;; Ok (s ++ sep ++ r)%string).
    now rewrite IH.
Qed.

Section Description.
Variable rt : runtime.
Variable currency : pyval.

(** X10. The description cell of an item row: the dash when there are no
    charge labels ([None] or the empty list), else the labels joined with
    a comma and a space; a label that is not a string stops the row with a
    [TypeError] before anything is formatted. *)
Theorem item_row_description (item : Item.t) :
  (forall r, Item.charge_types item = None \/ Item.charge_types item = Some [] ->
             item_row rt currency item = Ok r ->
             nth_error r 1 = Some (Paragraph (PStr "-") "tabval"))
  /\ (forall r label labels,
         Item.charge_types item = Some (map PStr (label :: labels)) ->
         item_row rt currency item = Ok r ->
         nth_error r 1
         = Some (Paragraph (PStr (String.concat ", " (label :: labels))) "tabval"))
  /\ (forall l x, Item.charge_types item = Some l -> In x l ->
                  (forall s, x <> PStr s) ->
                  item_row rt currency item = Raise TypeError).
Proof.
  split; [| split].
  - intros r E H. apply item_row_inv in H.
    destruct H as [desc [p [q [line [t [Hd [_ [_ [_ [_ [_ ->]]]]]]]]]]].
    destruct E as [E | E]; rewrite E in Hd; injection Hd as <-; reflexivity.
  - intros r label labels E H. apply item_row_inv in H.
    destruct H as [desc [p [q [line [t [Hd [_ [_ [_ [_ [_ ->]]]]]]]]]]].
    rewrite E in Hd.
    change (match map PStr (label :: labels) with
            | [] => Ok "-"
            | _ :: _ => join_comma (map PStr (label :: labels))
            end) with (join_comma (map PStr (label :: labels))) in Hd.
    rewrite join_comma_py_join, py_join_strings in Hd.
    injection Hd as <-. reflexivity.
  - intros l x E Hin Hx. unfold item_row. rewrite E.
    destruct l as [| y ys]; [destruct Hin |].
    rewrite join_comma_py_join, (py_join_not_string _ _ x Hin Hx). reflexivity.
Qed.
End Description.

(** ** The padding loop *)

(** X11. The padding loop keeps the rows it is given and appends blank rows
    only: it changes nothing from seven rows on, and running it twice is
    running it once. *)
Theorem pad_rows_properties (item_data : list row) :
  firstn (List.length item_data) (pad_rows item_data) = item_data
  /\ skipn (List.length item_data) (pad_rows item_data)
     = repeat blank_row (7 - List.length item_data)
  /\ (7 <= List.length item_data -> pad_rows item_data = item_data)%nat
  /\ pad_rows (pad_rows item_data) = pad_rows item_data.
Proof.
  rewrite pad_rows_spec. split; [| split; [| split]].
  - rewrite firstn_app, Nat.sub_diag, firstn_all. simpl. apply app_nil_r.
  - rewrite skipn_app, Nat.sub_diag, skipn_all. reflexivity.
  - intros H. replace (7 - List.length item_data)%nat with 0%nat by lia.
    apply app_nil_r.
  - rewrite pad_rows_spec, List.length_app, repeat_length.
    replace (7 - (List.length item_data + (7 - List.length item_data)))%nat
      with 0%nat by lia.
    apply app_nil_r.
Qed.

Lemma pad_rows_properties_witness :
  (7 <= List.length (repeat blank_row 9))%nat
  /\ pad_rows (repeat blank_row 9) = repeat blank_row 9.
Proof.
  split; [simpl; lia |].
  apply (proj1 (proj2 (proj2 (pad_rows_properties (repeat blank_row 9))))).
  simpl. lia.
Defined.

(** ** Adding items and the subtotal *)

Lemma sum_loop_app_raise (rt : runtime) (xs ys : list (result num))
    (st : sum_state) (e : exn) :
  sum_loop rt st xs = Raise e -> sum_loop rt st (xs ++ ys) = Raise e.
Proof.
  revert st. induction xs as [| x xs IH]; intros st H; simpl in *.
  - discriminate H.
  - destruct x as [v | e']; simpl in *; [| exact H].
    destruct (sum_step rt st v) as [st' | e']; simpl in *; [| exact H].
    now apply IH.
Qed.

Lemma sum_loop_app_ok (rt : runtime) (xs : list (result num))
    (st : sum_state) (s : num) :
  sum_loop rt st xs = Ok s ->
  exists st', sum_finish st' = s
              /\ forall ys, sum_loop rt st (xs ++ ys) = sum_loop rt st' ys.
Proof.
  revert st. induction xs as [| x xs IH]; intros st H; simpl in *.
  - injection H as <-. now exists st.
  - destruct x as [v | e']; simpl in *; [| discriminate H].
    destruct (sum_step rt st v) as [st' | e']; simpl in *; [| discriminate H].
    now apply IH.
Qed.

(** Under the plain algorithm the running total is the only state. *)
Lemma sum_loop_app_plain (rt : runtime) (xs ys : list (result num)) (acc : num) :
  sum_loop rt (SumObject acc) (xs ++ ys)
  = (s <- sum_loop rt (SumObject acc) xs ;; sum_loop rt (SumObject s) ys).
Proof.
  revert acc. induction xs as [| x xs IH]; intros acc; simpl; [reflexivity |].
  destruct x as [v | e]; simpl; [| reflexivity].
  destruct (py_add acc v) as [acc' | e]; simpl; [apply IH | reflexivity].
Qed.

(** X12. After [add_item] the invoice has one more item, and the subtotal
    runs over the old items first: an invoice whose subtotal failed still
    fails, with the same error, and a new item whose line total fails
    makes a computable subtotal fail with that error.  Where the builtin
    [sum] adds plainly the new subtotal is the old one plus the new line
    total; where every number is an integer it is so under either
    algorithm. Under the compensated algorithm it need not be: with
    line totals 1e16 and 1.0 the subtotal is 1e16, and adding an item of
    1.0 makes it 10000000000000002.0, not 1e16 + 1.0 = 1e16. *)
Theorem subtotal_after_add_item (rt : runtime) (invoice invoice' : Invoice.t)
    (item : Item.t) :
  Invoice.add_item invoice item = Ok invoice' ->
  Invoice.items invoice' = Invoice.items invoice ++ [item]
  /\ List.length (Invoice.items invoice')
     = S (List.length (Invoice.items invoice))
  /\ (forall e, calculate_subtotal rt (Invoice.items invoice) = Raise e ->
                calculate_subtotal rt (Invoice.items invoice') = Raise e)
  /\ (forall s e, calculate_subtotal rt (Invoice.items invoice) = Ok s ->
                  Item.price_cal rt item = Raise e ->
                  calculate_subtotal rt (Invoice.items invoice') = Raise e)
  /\ (builtin_sum rt = PlainSum ->
      calculate_subtotal rt (Invoice.items invoice')
      = (s <- calculate_subtotal rt (Invoice.items invoice) ;;
         line <- Item.price_cal rt item ;;
         py_add s line))
  /\ (forallb exact_item (Invoice.items invoice) = true ->
      exact_item item = true ->
      exists s line,
        calculate_subtotal rt (Invoice.items invoice) = Ok (PyInt s)
        /\ Item.price_cal rt item = Ok (PyInt line)
        /\ calculate_subtotal rt (Invoice.items invoice') = Ok (PyInt (s + line)))
  /\ (builtin_sum rt = CompensatedSum ->
      calculate_subtotal rt [unit_item 1e16; unit_item 1]
      = Ok (PyFloat 1e16)
      /\ Item.price_cal rt (unit_item 1) = Ok (PyFloat 1)
      /\ py_add (PyFloat 1e16) (PyFloat 1) = Ok (PyFloat 1e16)
      /\ calculate_subtotal rt [unit_item 1e16; unit_item 1; unit_item 1]
         = Ok (PyFloat 10000000000000002)).
Proof.
  intros H. injection H as <-. cbn [Invoice.items].
  split; [reflexivity |].
  split; [rewrite List.length_app; simpl; lia |].
  unfold calculate_subtotal, sum_iter. rewrite map_app. cbn [map].
  split; [intros e He; now apply sum_loop_app_raise |].
  split.
  { intros s e Hs He. apply sum_loop_app_ok in Hs as [st' [_ Hs]].
    rewrite Hs, He. reflexivity. }
  split.
  { intros Hplain. unfold sum_start. rewrite Hplain.
    rewrite sum_loop_app_plain.
    destruct (sum_loop rt (SumObject (PyInt 0))
                (map (Item.price_cal rt) (Invoice.items invoice))) as [s | e];
      cbn [bind sum_loop]; [| reflexivity].
    destruct (Item.price_cal rt item) as [line | e]; cbn [bind sum_step];
      [| reflexivity].
    destruct (py_add s line); reflexivity. }
  split.
  { intros Hex Hi.
    exists (fold_right Z.add 0 (map exact_line_total (Invoice.items invoice))),
           (exact_line_total item).
    pose proof (subtotal_exact rt _ Hex) as E1.
    assert (Hex' : forallb exact_item (Invoice.items invoice ++ [item]) = true).
    { rewrite forallb_app, Hex. simpl. now rewrite Hi. }
    pose proof (subtotal_exact rt _ Hex') as E2.
    unfold calculate_subtotal, sum_iter in E1, E2.
    rewrite map_app in E2. cbn [map] in E2.
    split; [exact E1 |]. split; [now apply price_cal_exact |].
    rewrite E2. f_equal. f_equal. rewrite map_app, fold_right_app. simpl.
    generalize (map exact_line_total (Invoice.items invoice)).
    intros l. induction l as [| x l IH]; simpl; lia. }
  intros Hc. unfold Item.price_cal, py_sum, sum_iter, sum_start.
  rewrite Hc. repeat split; reflexivity.
Qed.

Lemma subtotal_after_add_item_witness :
  exists invoice',
    Invoice.add_item scenario_invoice desk_item = Ok invoice'
    /\ builtin_sum plain_sum_runtime = PlainSum
    /\ calculate_subtotal plain_sum_runtime (Invoice.items invoice')
       = Ok (PyFloat 147).
Proof.
  eexists. split; [reflexivity |]. split; [reflexivity |].
  rewrite (proj1 (proj2 (proj2 (proj2 (proj2
             (subtotal_after_add_item plain_sum_runtime scenario_invoice _
                desk_item eq_refl))))) eq_refl).
  reflexivity.
Defined.

(** ** The empty invoice *)


(** ** Invoice numbers and file names *)

Lemma string_of_Z_inj (z z' : Z) :
  NilZero.string_of_int (Z.to_int z) = NilZero.string_of_int (Z.to_int z') ->
  z = z'.
Proof.
  intros H. apply DecimalZ.to_int_inj.
  assert (Hn : forall x, Z.to_int x <> Decimal.Pos Decimal.Nil
                         /\ Z.to_int x <> Decimal.Neg Decimal.Nil).
  { intros x. destruct x as [| p | p]; simpl; split; try discriminate;
      intros E; injection E as E; now apply DecimalPos.Unsigned.to_uint_nonnil in E. }
  destruct (Hn z) as [H1 H2]. destruct (Hn z') as [H1' H2'].
  pose proof (NilZero.isi _ H1 H2) as E. rewrite H in E.
  rewrite (NilZero.isi _ H1' H2') in E. now injection E.
Qed.

(** X14. The invoice number is ["INV-"] followed by the decimal digits of the
    object identity, and the default file name is built from it: two
    invoices get the same number, or the same default file name, only if
    their identities are equal.  A file name given by the caller is used as
    it is. *)
Theorem invoice_number_injective (c c' : Client.t) (now now' ident ident' : Z) :
  (Invoice.invoice_number (Invoice.init c now ident)
   = Invoice.invoice_number (Invoice.init c' now' ident') -> ident = ident')
  /\ (pdf_filename (Invoice.init c now ident) None
      = pdf_filename (Invoice.init c' now' ident') None -> ident = ident')
  /\ (forall f, pdf_filename (Invoice.init c now ident) (Some f) = f).
Proof.
  split; [| split].
  - simpl. intros H. injection H as H. now apply string_of_Z_inj.
  - simpl. intros H. injection H as H. apply string_of_Z_inj.
    apply (string_app_inv_tail ".pdf"). exact H.
  - reflexivity.
Qed.

Lemma invoice_number_injective_witness :
  Invoice.invoice_number (Invoice.init sample_client 0 140001)
  = Invoice.invoice_number (Invoice.init sample_client 5 140001)
  /\ 140001 = 140001.
Proof.
  split; [reflexivity |].
  apply (proj1 (invoice_number_injective sample_client sample_client 0 5
                  140001 140001)). reflexivity.
Defined.

(** ** The tax line of the totals block *)

Lemma all_digits_app (a b : string) :
  all_digits (a ++ b) = all_digits a && all_digits b.
Proof.
  induction a as [| c a IH]; simpl; [reflexivity |].
  now rewrite IH, andb_assoc.
Qed.

Lemma decimal_digits_spec (n : Z) :
  0 <= n ->
  (1 <= String.length (decimal_digits n))%nat
  /\ all_digits (decimal_digits n) = true
  /\ read_digits 0 (decimal_digits n) = n.
Proof.
  funelim (decimal_digits n); intros Hn.
  - assert (H' : 0 <= n <= 9) by lia.
    rewrite read_digit_char by exact H'. cbn [String.length all_digits read_digits].
    destruct (digit_char_facts _ H') as [-> _].
    split; [lia |]. split; [reflexivity | lia].
  - assert (Hq : 0 <= n / 10) by (apply Z.div_pos; lia).
    pose proof (Z.mod_pos_bound n 10 ltac:(lia)) as Hr.
    assert (Hr' : 0 <= n mod 10 <= 9) by lia.
    destruct (H Hq) as [Hl [Hd Hv]].
    rewrite string_app_length, all_digits_app, read_digits_app, Hd, Hv.
    rewrite read_digit_char by exact Hr'. cbn [String.length all_digits read_digits].
    destruct (digit_char_facts _ Hr') as [-> _].
    split; [lia |]. split; [reflexivity |].
    pose proof (Z.div_mod n 10 ltac:(lia)). lia.
Qed.

(** X15. The tax rate is shown as a percentage: the rate times 100 with two
    decimals and without grouping, followed by the percent sign.  On a
    float rate this never fails; when the product is finite its digits,
    read back, are the product in hundredths as the currency format rounds
    them. *)
Theorem tax_display_float (r : float) :
  tax_display (PyFloat r) = Ok (format_plain_f2 (r * 100) ++ "%")%string
  /\ (is_finite (r * 100) = true -> plain_two_decimals (format_plain_f2 (r * 100)))
  /\ (forall s m e,
         Prim2SF (r * 100)%float = S754_finite s m e ->
         exists body cents,
           format_plain_f2 (r * 100)
           = (sign_str s ++ body ++ "." ++ cents)%string
           /\ 100 * read_digits 0 body + read_digits 0 cents = hundredths m e).
Proof.
  split; [reflexivity |]. split.
  - intros H. unfold format_plain_f2.
    destruct (finite_cases _ H) as [[s ->] | [s [m [e ->]]]].
    + exists (sign_str s), "0", "00". split; [reflexivity |].
      split; [destruct s; simpl; auto |]. repeat split; simpl; lia.
    + pose proof (hundredths_nonneg m e) as Hc.
      set (c := hundredths m e) in *.
      assert (Hq : 0 <= c / 100) by (apply Z.div_pos; lia).
      pose proof (Z.mod_pos_bound c 100 ltac:(lia)) as Hr.
      destruct (decimal_digits_spec _ Hq) as [Hl [Hd _]].
      destruct (two_digits_shape _ Hr) as [Hl2 Hd2].
      exists (sign_str s), (decimal_digits (c / 100)), (two_digits (c mod 100)).
      split; [reflexivity |]. split; [destruct s; simpl; auto |].
      repeat split; assumption.
  - intros s m e E. unfold format_plain_f2. rewrite E.
    pose proof (hundredths_nonneg m e) as Hc.
    set (c := hundredths m e) in *.
    assert (Hq : 0 <= c / 100) by (apply Z.div_pos; lia).
    pose proof (Z.mod_pos_bound c 100 ltac:(lia)) as Hr.
    exists (decimal_digits (c / 100)), (two_digits (c mod 100)).
    split; [reflexivity |].
    destruct (decimal_digits_spec _ Hq) as [_ [_ ->]].
    rewrite two_digits_value by exact Hr.
    pose proof (Z.div_mod c 100 ltac:(lia)). lia.
Qed.

Lemma tax_display_float_witness :
  is_finite (0.07 * 100)%float = true
  /\ tax_display (PyFloat 0.07) = Ok "7.00%"
  /\ plain_two_decimals (format_plain_f2 (0.07 * 100)).
Proof.
  split; [reflexivity |]. split; [reflexivity |].
  apply (proj1 (proj2 (tax_display_float 0.07%float))). reflexivity.
Defined.

(** ** The footer *)

Lemma concat_empty_cons (x : string) (l : list string) :
  String.concat "" (x :: l) = (x ++ String.concat "" l)%string.
Proof.
  destruct l as [| y l]; simpl; [now rewrite string_app_nil_r | reflexivity].
Qed.

Lemma utf8_chars_concat (s : string) : String.concat "" (utf8_chars s) = s.
Proof.
  induction s as [| c s IH]; [reflexivity |].
  cbn [utf8_chars]. destruct (utf8_chars s) as [| cur rest].
  - simpl in IH. now subst s.
  - rewrite concat_empty_cons in IH.
    destruct (starts_with_continuation cur); rewrite !concat_empty_cons.
    + simpl. now rewrite IH.
    + simpl. now rewrite IH.
Qed.

(** The pieces are the characters: each is one byte followed by the
    continuation bytes after it, and each but the first begins with a byte
    that is not a continuation byte. *)
Lemma utf8_chars_pieces (s : string) :
  forallb one_char (utf8_chars s) = true
  /\ forallb char_start (tl (utf8_chars s)) = true.
Proof.
  induction s as [| c s [IH1 IH2]]; [split; reflexivity |].
  cbn [utf8_chars]. destruct (utf8_chars s) as [| cur rest]; [split; reflexivity |].
  cbn [forallb tl] in IH1, IH2. apply andb_true_iff in IH1 as [Hc Hr].
  destruct cur as [| c' t]; [discriminate Hc |].
  cbn [starts_with_continuation one_char] in *.
  destruct (is_continuation c') eqn:E; cbn [forallb tl one_char char_start
                                            all_continuation].
  - rewrite E, Hc, Hr. split; [reflexivity | exact IH2].
  - rewrite E, Hc, Hr, IH2. split; reflexivity.
Qed.

(** Where no byte is a continuation byte (plain ASCII, for one) the
    characters are the bytes. *)
Lemma utf8_chars_bytes (s : string) :
  forallb (fun c => negb (is_continuation c)) (list_ascii_of_string s) = true ->
  utf8_chars s = map (fun c => String c "") (list_ascii_of_string s).
Proof.
  induction s as [| c s IH]; intros H; [reflexivity |].
  cbn [list_ascii_of_string forallb] in H.
  apply andb_true_iff in H as [_ H]. specialize (IH H).
  cbn [utf8_chars list_ascii_of_string map]. rewrite IH.
  destruct s as [| c' s']; [reflexivity |].
  cbn [list_ascii_of_string map forallb] in H |- *.
  apply andb_true_iff in H as [H _]. apply negb_true_iff in H.
  cbn [starts_with_continuation]. rewrite H. reflexivity.
Qed.

Lemma footer_part (sep : string) (l : list string) :
  (xs <- join_items (if truthy (PList (map PStr l))
                     then PList (map PStr l) else PList [PStr ""]) ;;
   py_join sep xs) = Ok (String.concat sep l).
Proof.
  destruct l as [| s l]; [reflexivity |].
  change (truthy (PList (map PStr (s :: l)))) with true.
  cbn [join_items bind]. apply py_join_strings.
Qed.

(** X16. The footer text: notes and terms that are false ([None], an empty
    list, ...) are replaced by one empty line, so the section is rendered
    with its headings and no body; lists of strings are joined with line
    breaks under the headings; a list element that is not a string is a
    [TypeError]; a string given instead of a list is split into its
    characters: pieces that put together give the string again, each one
    byte with the continuation bytes that follow it, so that a string
    without continuation bytes is split into its bytes, and notes ["ab"]
    come out as [a<br/>b]. *)
Theorem footer_text_cases :
  (forall notes terms,
      truthy notes = false -> truthy terms = false ->
      footer_text notes terms
      = Ok "<b>Notes:</b><br/><br/><br/><b>Terms & Conditions:</b><br/>")
  /\ (forall ns ts,
         footer_text (PList (map PStr ns)) (PList (map PStr ts))
         = Ok ("<b>Notes:</b><br/>" ++ String.concat "<br/>" ns
               ++ "<br/><br/><b>Terms & Conditions:</b><br/>"
               ++ String.concat "<br/>" ts)%string)
  /\ (forall l x terms,
         In x l -> (forall s, x <> PStr s) ->
         footer_text (PList l) terms = Raise TypeError)
  /\ (forall s, join_items (PStr s) = Ok (map PStr (utf8_chars s))
                /\ String.concat "" (utf8_chars s) = s
                /\ forallb one_char (utf8_chars s) = true
                /\ forallb char_start (tl (utf8_chars s)) = true)
  /\ (forall s,
         forallb (fun c => negb (is_continuation c)) (list_ascii_of_string s)
         = true ->
         utf8_chars s = map (fun c => String c "") (list_ascii_of_string s))
  /\ footer_text (PStr "ab") PNone
     = Ok "<b>Notes:</b><br/>a<br/>b<br/><br/><b>Terms & Conditions:</b><br/>".
Proof.
  split; [| split; [| split; [| split; [| split]]]].
  - intros notes terms Hn Ht. unfold footer_text. now rewrite Hn, Ht.
  - intros ns ts. unfold footer_text.
    pose proof (footer_part "<br/>" ns) as Hn.
    pose proof (footer_part "<br/>" ts) as Ht.
    destruct (join_items (if truthy (PList (map PStr ns)) then _ else _))
      as [xs |]; [| discriminate Hn].
    cbn [bind] in Hn |- *. rewrite Hn. cbn [bind].
    destruct (join_items (if truthy (PList (map PStr ts)) then _ else _))
      as [ys |]; [| discriminate Ht].
    cbn [bind] in Ht |- *. rewrite Ht. reflexivity.
  - intros l x terms Hin Hx. unfold footer_text.
    destruct l as [| y l]; [destruct Hin |].
    change (truthy (PList (y :: l))) with true. cbn [join_items bind].
    now rewrite (py_join_not_string _ _ x Hin Hx).
  - intros s. split; [reflexivity |]. split; [apply utf8_chars_concat |].
    apply utf8_chars_pieces.
  - apply utf8_chars_bytes.
  - reflexivity.
Qed.

Lemma footer_text_cases_witness :
  truthy (PList []) = false /\ truthy PNone = false
  /\ footer_text (PList []) PNone
     = Ok "<b>Notes:</b><br/><br/><br/><b>Terms & Conditions:</b><br/>".
Proof.
  split; [reflexivity |]. split; [reflexivity |].
  apply (proj1 footer_text_cases); reflexivity.
Defined.

(** ** Values stored without validation *)

(** X17. [set_discount] stores any value, and the totals are where a value
    that is not a number is noticed.  With such a discount or tax rate the
    totals are never computed.  The error is a [TypeError] when the
    subtotal is computable and the discount is not a number, and when the
    discounted amount is computable and the tax rate is not a number (an
    earlier failure, of the subtotal or of the discount arithmetic, comes
    first otherwise).  Whenever the totals fail, the totals block fails
    with the same error, so nothing is rendered. *)
Theorem totals_type_error (rt : runtime) (invoice : Invoice.t) :
  (forall amount dtype,
      exists invoice',
        Invoice.set_discount invoice amount dtype = Ok invoice'
        /\ Invoice.discount invoice' = amount
        /\ Invoice.discount_type invoice' = dtype
        /\ Invoice.items invoice' = Invoice.items invoice
        /\ Invoice.tax_rate invoice' = Invoice.tax_rate invoice)
  /\ (is_numeric (Invoice.discount invoice) = false
      \/ is_numeric (Invoice.tax_rate invoice) = false ->
      exists e, totals rt invoice = Raise e)
  /\ (forall s,
         calculate_subtotal rt (Invoice.items invoice) = Ok s ->
         is_numeric (Invoice.discount invoice) = false ->
         totals rt invoice = Raise TypeError)
  /\ (forall s d x,
         calculate_subtotal rt (Invoice.items invoice) = Ok s ->
         as_num (Invoice.discount invoice) = Ok d ->
         apply_discount s d (Invoice.discount_type invoice) = Ok x ->
         is_numeric (Invoice.tax_rate invoice) = false ->
         totals rt invoice = Raise TypeError)
  /\ (forall currency e,
         totals rt invoice = Raise e ->
         amt_rows rt currency invoice = Raise e).
Proof.
  assert (Hnum : forall v, is_numeric v = false -> as_num v = Raise TypeError)
    by (intros v; destruct v; simpl; intros H; try discriminate; reflexivity).
  split; [| split; [| split; [| split]]].
  - intros amount dtype. eexists. split; [reflexivity |]. repeat split.
  - intros H. unfold totals.
    destruct (calculate_subtotal rt (Invoice.items invoice)) as [s | e];
      cbn [bind]; [| eauto].
    destruct (as_num (Invoice.discount invoice)) as [d | e] eqn:Ed;
      cbn [bind]; [| eauto].
    destruct (apply_discount s d (Invoice.discount_type invoice)) as [x | e];
      cbn [bind]; [| eauto].
    destruct H as [H | H].
    + rewrite (Hnum _ H) in Ed. discriminate.
    + rewrite (Hnum _ H). cbn [bind]. eauto.
  - intros s Hs H. unfold totals. rewrite Hs. cbn [bind].
    now rewrite (Hnum _ H).
  - intros s d x Hs Hd Hx H. unfold totals. rewrite Hs. cbn [bind].
    rewrite Hd. cbn [bind]. rewrite Hx. cbn [bind]. now rewrite (Hnum _ H).
  - intros currency e H. unfold amt_rows. rewrite H. reflexivity.
Qed.

Lemma totals_type_error_witness :
  calculate_subtotal numeric_only_runtime (Invoice.items text_discount_invoice)
  = Ok (PyFloat 20)
  /\ is_numeric (Invoice.discount text_discount_invoice) = false
  /\ totals numeric_only_runtime text_discount_invoice = Raise TypeError.
Proof.
  split; [reflexivity |]. split; [reflexivity |].
  apply (proj1 (proj2 (proj2
           (totals_type_error numeric_only_runtime text_discount_invoice)))
           (PyFloat 20)); reflexivity.
Defined.

(** ** Instances *)

Lemma item_of_payload_shape_witness :
  exists item nm q p types cs,
    item_of_payload numeric_only_runtime mismatched_payload = Ok item
    /\ item = handler_item nm q p (Some types) cs
    /\ List.length types = List.length cs.
Proof.
  eexists.
  destruct (item_of_payload_shape numeric_only_runtime mismatched_payload _ eq_refl)
    as [nm [q [p [types [cs [H1 [H2 _]]]]]]].
  exists nm, q, p, types, cs. split; [reflexivity |]. split; assumption.
Defined.

Lemma item_of_payload_errors_witness :
  item_of_payload numeric_only_runtime nameless_item_payload = Raise KeyError.
Proof.
  apply (proj1 (proj2 (proj2 (proj2 (item_of_payload_errors numeric_only_runtime)))
                  [("quantity", PNum (PyInt 1)); ("price", PNum (PyInt 3))]
                  [] [] eq_refl eq_refl)).
  reflexivity.
Defined.

Lemma item_of_payload_no_charges_witness :
  item_of_payload numeric_only_runtime bare_item_payload
  = Ok (handler_item (PStr "pen") 4 1.5 (Some []) []).
Proof.
  apply (item_of_payload_no_charges numeric_only_runtime
           [("name", PStr "pen"); ("quantity", PNum (PyInt 4));
            ("price", PNum (PyFloat 1.5))]
           (PStr "pen") (PNum (PyInt 4)) (PNum (PyFloat 1.5)) 4 1.5%float);
    reflexivity.
Defined.

Lemma create_invoice_items_witness :
  exists invoice currency payload,
    create_invoice numeric_only_runtime scenario_payload 0 1
    = Ok (invoice, currency)
    /\ mapM (item_of_payload numeric_only_runtime) payload
       = Ok (Invoice.items invoice)
    /\ List.length (Invoice.items invoice) = List.length payload.
Proof.
  eexists. eexists.
  destruct (create_invoice_items numeric_only_runtime scenario_payload 0 1
              _ _ eq_refl) as [payload [_ [H1 [H2 _]]]].
  exists payload. split; [reflexivity |]. split; assumption.
Defined.

Lemma create_invoice_settings_witness :
  exists invoice currency,
    create_invoice numeric_only_runtime type_only_payload 0 1
    = Ok (invoice, currency)
    /\ Invoice.discount_type invoice = PStr "flat"
    /\ currency = PStr "USD".
Proof.
  eexists. eexists. split; [reflexivity |].
  match goal with
  | |- Invoice.discount_type ?i = _ /\ ?c = _ =>
      pose proof (create_invoice_settings numeric_only_runtime
                    [ ("client", PDict [ ("name", PStr "Acme");
                                         ("email", PStr "billing@acme.example");
                                         ("address", PStr "1 Main Street") ]);
                      ("items", PList [ bare_item_payload ]);
                      ("discount_type", PStr "percentage") ]
                    0 1 i c eq_refl) as H
  end.
  destruct H as [_ [_ [H3 [_ [H5 _]]]]].
  split; [exact (proj2 (H3 eq_refl)) | exact (H5 eq_refl)].
Defined.

Lemma create_invoice_errors_witness :
  create_invoice numeric_only_runtime no_client_payload 0 1 = Raise KeyError.
Proof.
  apply (proj1 (proj2 (create_invoice_errors numeric_only_runtime 0 1))).
  reflexivity.
Defined.

Lemma created_invoice_totals_witness :
  exists invoice currency,
    create_invoice numeric_only_runtime scenario_payload 0 1
    = Ok (invoice, currency)
    /\ forallb qty_fits (Invoice.items invoice) = true
    /\ exists s d t,
         totals numeric_only_runtime invoice = Ok (s, PyFloat d, PyFloat t).
Proof.
  eexists. eexists. split; [reflexivity |]. split; [reflexivity |].
  match goal with
  | |- exists s d t, totals _ ?i = _ =>
      pose proof (created_invoice_totals numeric_only_runtime scenario_payload
                    0 1 i (PStr "USD") eq_refl) as H
  end.
  change (forallb qty_fits _) with true in H. cbv iota in H.
  destruct H as [s [d [t [H _]]]]. exists s, d, t. exact H.
Defined.

Lemma py_int_float_witness :
  is_finite 2.5%float = true
  /\ exists z, py_int numeric_only_runtime (PNum (PyFloat 2.5)) = Ok z.
Proof.
  split; [reflexivity |].
  apply (proj1 (proj2 (proj2 (py_int_float numeric_only_runtime 2.5%float)))).
  reflexivity.
Defined.

Lemma item_row_description_witness :
  exists r,
    item_row numeric_only_runtime (PStr "USD") labelled_item = Ok r
    /\ nth_error r 1 = Some (Paragraph (PStr "shipping, duty") "tabval").
Proof.
  eexists. split; [reflexivity |].
  apply (proj1 (proj2 (item_row_description numeric_only_runtime (PStr "USD")
                         labelled_item))
           _ "shipping" ["duty"] eq_refl eq_refl).
Defined.

Lemma item_table_raise_witness :
  mapM (item_row numeric_only_runtime (PStr "USD"))
       (Invoice.items bad_name_invoice) = Raise AttributeError
  /\ item_table numeric_only_runtime (PStr "USD") bad_name_invoice
     = Raise AttributeError
  /\ mapM (item_row numeric_only_runtime (PStr "USD"))
          (Invoice.items bad_label_invoice) = Raise TypeError
  /\ item_table numeric_only_runtime (PStr "USD") bad_label_invoice
     = Raise TypeError.
Proof.
  split; [reflexivity |]. split.
  - apply (proj1 (item_table_raise numeric_only_runtime (PStr "USD")
                    bad_name_invoice)).
    reflexivity.
  - split; [reflexivity |].
    apply (proj1 (item_table_raise numeric_only_runtime (PStr "USD")
                    bad_label_invoice)).
    reflexivity.
Defined.
